(** * daily-tracker: the domain layer, embedded and verified

    A shallow embedding of the Go packages
    [pkg/errors], [internal/domain/valueobjects] and [internal/domain/entities]
    of the daily-tracker repository, followed by the properties of the
    specification that concern them.

    Conventions of the embedding:
    - a Go [int], [int64] or [time.Duration] is a [Z]; where the source does
      arithmetic on it the 64-bit wrap-around is written out ([wrap64]);
    - a Go [float64] is a primitive binary64 [float];
    - a Go [string] is a [string] of bytes (the UTF-8 encoding of the text);
    - a function returning [(T, error)] returns a [result T];
    - a method with a pointer receiver takes the receiver and returns the
      updated receiver next to its Go result;
    - [time.Now()] reads a clock that is threaded through the [IO] monad. *)

From Stdlib Require Import ZArith List String Ascii Bool Lia Floats Uint63.
From Stdlib Require Decimal DecimalString DecimalZ.
Import ListNotations.

Open Scope Z_scope.

(** ** Go machine integers *)

Module GoInt.

Definition minInt64 : Z := - 2 ^ 63.
Definition maxInt64 : Z := 2 ^ 63 - 1.

(** The values of a Go [int] on a 64-bit platform. *)
Definition in_int64 (z : Z) : Prop := minInt64 <= z <= maxInt64.

(** Two's complement wrap-around of a mathematical result. *)
Definition wrap64 (z : Z) : Z := (z + 2 ^ 63) mod 2 ^ 64 - 2 ^ 63.

Definition add (a b : Z) : Z := wrap64 (a + b).
Definition sub (a b : Z) : Z := wrap64 (a - b).
Definition neg (a : Z) : Z := wrap64 (- a).

(** [float64(n)] for an integer [n] with [|n| < 2^63]. *)
Definition to_float64 (z : Z) : float :=
  if z <? 0 then PrimFloat.opp (PrimFloat.of_uint63 (Uint63.of_Z (- z)))
  else PrimFloat.of_uint63 (Uint63.of_Z z).

End GoInt.

(** ** Package [time] of the Go standard library

    The part the repository uses.  A [Time] is an instant (nanoseconds since
    the Unix epoch) together with the location it is displayed in; locations
    are fixed offsets from UTC ([time.UTC], [time.FixedZone]).  Monotonic clock
    readings are not modelled: instants are compared by their wall time. *)

Module GoTime.

Definition Duration : Type := Z.

Definition Nanosecond : Duration := 1.
Definition Microsecond : Duration := 1000 * Nanosecond.
Definition Millisecond : Duration := 1000 * Microsecond.
Definition Second : Duration := 1000 * Millisecond.
Definition Minute : Duration := 60 * Second.
Definition Hour : Duration := 60 * Minute.

Definition minDuration : Duration := GoInt.minInt64.
Definition maxDuration : Duration := GoInt.maxInt64.

(** [func (d Duration) Hours() float64]:
    [hour := d / Hour; nsec := d % Hour;
     return float64(hour) + float64(nsec)/(60*60*1e9)]
    with Go's truncating division and remainder. *)
Definition Hours (d : Duration) : float :=
  let hour := Z.quot d Hour in
  let nsec := Z.rem d Hour in
  (GoInt.to_float64 hour + GoInt.to_float64 nsec / (60 * 60 * 1e9))%float.

Record Location : Type := FixedZone { zoneOffset : Z (* seconds east of UTC *) }.

Definition UTC : Location := FixedZone 0.

Record Time : Type := mkTime {
  unixNano : Z;        (* the instant, in nanoseconds since 1970-01-01T00:00:00Z *)
  location : Location  (* the location the instant is displayed in *)
}.

Definition Location_of (t : Time) : Location := location t.

Definition Before (t u : Time) : bool := unixNano t <? unixNano u.

(** [t.Add(d)]. *)
Definition Add (t : Time) (d : Duration) : Time := mkTime (unixNano t + d) (location t).

(** [t.Sub(u)]: the duration [t-u], saturated at the largest and smallest
    [Duration] when the difference does not fit. *)
Definition Sub (t u : Time) : Duration :=
  let d := unixNano t - unixNano u in
  if (minDuration <=? d) && (d <=? maxDuration) then d
  else if Before t u then minDuration
  else maxDuration.

(** *** The proleptic Gregorian calendar *)

Definition secondsPerDay : Z := 86400.

Definition isLeap (year : Z) : bool :=
  (year mod 4 =? 0) && (negb (year mod 100 =? 0) || (year mod 400 =? 0)).

(** [daysBefore[m]]: the days of a non-leap year before month [m+1]. *)
Definition daysBefore (m : Z) : Z :=
  nth (Z.to_nat m) [0; 31; 59; 90; 120; 151; 181; 212; 243; 273; 304; 334; 365] 0.

(** Days from 1970-01-01 to January 1st of [year]. *)
Definition daysSinceEpoch (year : Z) : Z :=
  let y := year - 1 in
  365 * (year - 1970) + (y / 4 - y / 100 + y / 400) - 477.

(** [norm(hi, lo, base)]: carry [lo] into [hi] until [0 <= lo < base]. *)
Definition norm (hi lo base : Z) : Z * Z := (hi + lo / base, lo mod base).

(** [time.Date(year, month, day, hour, min, sec, nsec, loc)]: out-of-range
    fields are normalised, then the days and the seconds are counted. *)
Definition Date (year month day hour min sec nsec : Z) (loc : Location) : Time :=
  let '(year, m) := norm year (month - 1) 12 in
  let month := m + 1 in
  let '(sec, nsec) := norm sec nsec 1000000000 in
  let '(min, sec) := norm min sec 60 in
  let '(hour, min) := norm hour min 60 in
  let '(day, hour) := norm day hour 24 in
  let d := daysSinceEpoch year + daysBefore (month - 1) in
  let d := if isLeap year && (3 <=? month) then d + 1 else d in
  let d := d + (day - 1) in
  let unix := d * secondsPerDay + (hour * 3600 + min * 60 + sec) in
  let unix := unix - zoneOffset loc in
  mkTime (unix * Second + nsec) loc.

(** The civil date of a day number (days since 1970-01-01). *)
Definition civil (z : Z) : Z * Z * Z :=
  let z := z + 719468 in
  let era := z / 146097 in
  let doe := z mod 146097 in
  let yoe := (doe - doe / 1460 + doe / 36524 - doe / 146096) / 365 in
  let doy := doe - (365 * yoe + yoe / 4 - yoe / 100) in
  let mp := (5 * doy + 2) / 153 in
  let d := doy - (153 * mp + 2) / 5 + 1 in
  let m := if mp <? 10 then mp + 3 else mp - 9 in
  let y := yoe + era * 400 in
  (if m <=? 2 then y + 1 else y, m, d).

(** Seconds since the epoch on the wall clock of [t]'s location. *)
Definition localSeconds (t : Time) : Z :=
  unixNano t / Second + zoneOffset (location t).

Definition dayNumber (t : Time) : Z := localSeconds t / secondsPerDay.

Definition Year (t : Time) : Z := fst (fst (civil (dayNumber t))).
Definition Month (t : Time) : Z := snd (fst (civil (dayNumber t))).
Definition Day (t : Time) : Z := snd (civil (dayNumber t)).

(** [t.Clock()]: hour, minute and second within the day. *)
Definition Clock (t : Time) : Z * Z * Z :=
  let s := localSeconds t mod secondsPerDay in
  (s / 3600, (s mod 3600) / 60, s mod 60).

Definition Nanosecond_of (t : Time) : Z := unixNano t mod Second.

(** [t.AddDate(years, months, days)]. *)
Definition AddDate (t : Time) (years months days : Z) : Time :=
  let '(hour, min, sec) := Clock t in
  Date (Year t + years) (Month t + months) (Day t + days)
       hour min sec (Nanosecond_of t) (location t).

(** [t.UnixNano()]: the instant as an [int64] count of nanoseconds. *)
Definition UnixNano (t : Time) : Z := GoInt.wrap64 (unixNano t).

End GoTime.

(** ** Packages [unicode/utf8], [unicode] and [strings] of the Go standard library

    A Go string is a sequence of bytes; [strings.ToLower] and
    [strings.TrimSpace] read it as UTF-8.  The decoder follows
    [utf8.DecodeRune] (an ill-formed byte decodes to [RuneError] with width 1).
    [ToLower_rune] holds the entries of [unicode.CaseRanges] for the capital
    letters of Basic Latin, Latin-1 Supplement, Greek and Cyrillic (U+0400 to
    U+042F); a rune outside these ranges is left as it is.  [IsSpace] is the
    whole White_Space property, as in [unicode.IsSpace]. *)

Module GoStrings.

Definition rune : Type := Z.
Definition RuneError : rune := 0xFFFD.

Definition bytes_of (s : string) : list Z :=
  map (fun a => Z.of_N (N_of_ascii a)) (list_ascii_of_string s).

Definition string_of (bs : list Z) : string :=
  string_of_list_ascii (map (fun b => ascii_of_N (Z.to_N b)) bs).

Definition between (lo x hi : Z) : bool := (lo <=? x) && (x <=? hi).

Definition payload (b : Z) : Z := Z.land b 0x3F.

(** [utf8.DecodeRune]: the first rune of [bs] and its width in bytes. *)
Definition DecodeRune (bs : list Z) : rune * nat :=
  match bs with
  | [] => (RuneError, 0%nat)
  | b0 :: tl =>
    if b0 <? 0x80 then (b0, 1%nat)
    else if between 0xC2 b0 0xDF then
      match tl with
      | b1 :: _ =>
        if between 0x80 b1 0xBF
        then (Z.lor (Z.shiftl (Z.land b0 0x1F) 6) (payload b1), 2%nat)
        else (RuneError, 1%nat)
      | _ => (RuneError, 1%nat)
      end
    else if between 0xE0 b0 0xEF then
      let lo := if b0 =? 0xE0 then 0xA0 else 0x80 in
      let hi := if b0 =? 0xED then 0x9F else 0xBF in
      match tl with
      | b1 :: b2 :: _ =>
        if between lo b1 hi && between 0x80 b2 0xBF
        then (Z.lor (Z.shiftl (Z.land b0 0x0F) 12)
                (Z.lor (Z.shiftl (payload b1) 6) (payload b2)), 3%nat)
        else (RuneError, 1%nat)
      | _ => (RuneError, 1%nat)
      end
    else if between 0xF0 b0 0xF4 then
      let lo := if b0 =? 0xF0 then 0x90 else 0x80 in
      let hi := if b0 =? 0xF4 then 0x8F else 0xBF in
      match tl with
      | b1 :: b2 :: b3 :: _ =>
        if between lo b1 hi && between 0x80 b2 0xBF && between 0x80 b3 0xBF
        then (Z.lor (Z.shiftl (Z.land b0 0x07) 18)
                (Z.lor (Z.shiftl (payload b1) 12)
                   (Z.lor (Z.shiftl (payload b2) 6) (payload b3))), 4%nat)
        else (RuneError, 1%nat)
      | _ => (RuneError, 1%nat)
      end
    else (RuneError, 1%nat)
  end.

(** The runes of a byte sequence, each with the bytes it was decoded from
    (what a [for range] loop over the string visits). *)
Fixpoint runes_fuel (fuel : nat) (bs : list Z) : list (rune * list Z) :=
  match fuel, bs with
  | O, _ | _, [] => []
  | S fuel, _ :: _ =>
    let '(r, w) := DecodeRune bs in
    (r, firstn w bs) :: runes_fuel fuel (skipn w bs)
  end.

Definition runes (bs : list Z) : list (rune * list Z) :=
  runes_fuel (List.length bs) bs.

(** [utf8.AppendRune]. *)
Definition EncodeRune (r : rune) : list Z :=
  let tx (n : Z) := Z.lor 0x80 (Z.land (Z.shiftr r n) 0x3F) in
  if between 0 r 0x7F then [r]
  else if between 0x80 r 0x7FF then [Z.lor 0xC0 (Z.shiftr r 6); tx 0]
  else if (r <? 0) || (0x10FFFF <? r) || between 0xD800 r 0xDFFF then [0xEF; 0xBF; 0xBD]
  else if r <=? 0xFFFF then [Z.lor 0xE0 (Z.shiftr r 12); tx 6; tx 0]
  else [Z.lor 0xF0 (Z.shiftr r 18); tx 12; tx 6; tx 0].

(** [unicode.ToLower] on the tabulated ranges. *)
Definition ToLower_rune (r : rune) : rune :=
  if between 0x41 r 0x5A then r + 32                       (* A-Z *)
  else if between 0xC0 r 0xD6 || between 0xD8 r 0xDE then r + 32
  else if between 0x391 r 0x3A1 || between 0x3A3 r 0x3AB then r + 32
  else if between 0x400 r 0x40F then r + 80
  else if between 0x410 r 0x42F then r + 32
  else r.

(** [unicode.IsSpace]. *)
Definition IsSpace (r : rune) : bool :=
  between 0x09 r 0x0D || (r =? 0x20) || (r =? 0x85) || (r =? 0xA0)
  || (r =? 0x1680) || between 0x2000 r 0x200A || between 0x2028 r 0x2029
  || (r =? 0x202F) || (r =? 0x205F) || (r =? 0x3000).

(** [strings.ToLower]: every rune mapped by [unicode.ToLower]. *)
Definition ToLower (s : string) : string :=
  string_of (flat_map (fun rb => EncodeRune (ToLower_rune (fst rb))) (runes (bytes_of s))).

Fixpoint dropWhile {A} (p : A -> bool) (l : list A) : list A :=
  match l with
  | [] => []
  | x :: tl => if p x then dropWhile p tl else l
  end.

(** [strings.TrimSpace]: the string without its leading and trailing
    white-space runes. *)
Definition TrimSpace (s : string) : string :=
  let isSpace (rb : rune * list Z) := IsSpace (fst rb) in
  let body := rev (dropWhile isSpace (rev (dropWhile isSpace (runes (bytes_of s))))) in
  string_of (flat_map snd body).

End GoStrings.

(** ** Packages [strconv] and [fmt] of the Go standard library

    The decimal numeral of an integer, as [strconv.FormatInt(i, 10)] and the
    verb [%d] of [fmt.Sprintf] print it: a minus sign for a negative number,
    no leading zero. *)

Module GoStrconv.

Definition FormatInt10 (i : Z) : string :=
  DecimalString.NilZero.string_of_int (Z.to_int i).

End GoStrconv.

(** ** Package [pkg/errors] *)

Module errors.

Local Open Scope string_scope.
Local Open Scope Z_scope.

Record DomainError : Type := mkDomainError {
  de_message : string;
  de_code : string
}.

Record ValidationError : Type := mkValidationError {
  ve_field : string;
  ve_message : string
}.

Record NotFoundError : Type := mkNotFoundError {
  nfe_resource : string;
  nfe_id : string
}.

(** The values of the interface [error] the repository produces. *)
Inductive error : Type :=
| ofDomainError (de : DomainError)
| ofValidationError (ve : ValidationError)
| ofNotFoundError (nfe : NotFoundError).

(** [Error()], by the type of the error; [fmt.Sprintf] with [%s] verbs is
    concatenation. *)
Definition Error (err : error) : string :=
  match err with
  | ofDomainError de => de_message de
  | ofValidationError ve =>
    "validation error for field '" ++ ve_field ve ++ "': " ++ ve_message ve
  | ofNotFoundError nfe => nfe_resource nfe ++ " with id '" ++ nfe_id nfe ++ "' not found"
  end.

Definition NewDomainError (message : string) : error :=
  ofDomainError (mkDomainError message "DOMAIN_ERROR").

Definition NewDomainErrorWithCode (message code : string) : error :=
  ofDomainError (mkDomainError message code).

Definition NewValidationError (field message : string) : error :=
  ofValidationError (mkValidationError field message).

Definition NewNotFoundError (resource id : string) : error :=
  ofNotFoundError (mkNotFoundError resource id).

Definition IsDomainError (err : error) : bool :=
  match err with ofDomainError _ => true | _ => false end.

Definition IsValidationError (err : error) : bool :=
  match err with ofValidationError _ => true | _ => false end.

Definition IsNotFoundError (err : error) : bool :=
  match err with ofNotFoundError _ => true | _ => false end.

End errors.

(** A Go result [(T, error)]: the value when the error is [nil], the error
    otherwise (the value returned next to an error is the zero value or [nil]
    throughout the repository). *)
Inductive result (A : Type) : Type :=
| Ok (a : A)
| Err (e : errors.error).

Arguments Ok {A} a.
Arguments Err {A} e.

(** ** Package [internal/domain/valueobjects] *)

Module valueobjects.

Import errors.
Local Open Scope string_scope.
Local Open Scope Z_scope.

Definition StressLevel : Type := Z.

Definition StressLevelMin : Z := 0.
Definition StressLevelMax : Z := 10.

Definition NewStressLevel (level : Z) : result StressLevel :=
  if (level <? StressLevelMin) || (level >? StressLevelMax)
  then Err (NewDomainError "stress level must be between 0 and 10")
  else Ok level.

Definition EnergyLevel : Type := Z.

Definition NewEnergyLevel (level : Z) : result EnergyLevel :=
  if (level <? 0) || (level >? 10)
  then Err (NewDomainError "energy level must be between 0 and 10")
  else Ok level.

Definition MoodLevel : Type := Z.

Definition NewMoodLevel (level : Z) : result MoodLevel :=
  if (level <? 0) || (level >? 10)
  then Err (NewDomainError "mood level must be between 0 and 10")
  else Ok level.

Definition SleepQuality : Type := Z.

Definition NewSleepQuality (quality : Z) : result SleepQuality :=
  if (quality <? 0) || (quality >? 10)
  then Err (NewDomainError "sleep quality must be between 0 and 10")
  else Ok quality.

Definition DaytimeSleepiness : Type := Z.

Definition NewDaytimeSleepiness (sleepiness : Z) : result DaytimeSleepiness :=
  if (sleepiness <? 0) || (sleepiness >? 10)
  then Err (NewDomainError "daytime sleepiness must be between 0 and 10")
  else Ok sleepiness.

(** The methods of the five scales: [Int()], [String()], which is
    [fmt.Sprintf("%d", level)], and the predicate of each scale. *)
Definition StressLevel_Int (sl : StressLevel) : Z := sl.
Definition StressLevel_String (sl : StressLevel) : string := GoStrconv.FormatInt10 sl.
Definition StressLevel_IsHigh (sl : StressLevel) : bool := sl >=? 7.

Definition EnergyLevel_Int (el : EnergyLevel) : Z := el.
Definition EnergyLevel_String (el : EnergyLevel) : string := GoStrconv.FormatInt10 el.
Definition EnergyLevel_IsLow (el : EnergyLevel) : bool := el <=? 3.

Definition MoodLevel_Int (ml : MoodLevel) : Z := ml.
Definition MoodLevel_String (ml : MoodLevel) : string := GoStrconv.FormatInt10 ml.
Definition MoodLevel_IsPositive (ml : MoodLevel) : bool := ml >=? 6.

Definition SleepQuality_Int (sq : SleepQuality) : Z := sq.
Definition SleepQuality_String (sq : SleepQuality) : string := GoStrconv.FormatInt10 sq.
Definition SleepQuality_IsGood (sq : SleepQuality) : bool := sq >=? 7.

Definition DaytimeSleepiness_Int (ds : DaytimeSleepiness) : Z := ds.
Definition DaytimeSleepiness_String (ds : DaytimeSleepiness) : string :=
  GoStrconv.FormatInt10 ds.
Definition DaytimeSleepiness_IsHigh (ds : DaytimeSleepiness) : bool := ds >=? 7.

Definition TaskCategory : Type := string.

Definition TaskCategoryWork : TaskCategory := "работа".
Definition TaskCategoryStudy : TaskCategory := "учеба".
Definition TaskCategoryPersonal : TaskCategory := "личное".
Definition TaskCategoryHealth : TaskCategory := "здоровье".
Definition TaskCategoryHobbies : TaskCategory := "хобби".
Definition TaskCategoryOther : TaskCategory := "другое".

Definition AllTaskCategories : list TaskCategory :=
  [ TaskCategoryWork;
    TaskCategoryStudy;
    TaskCategoryPersonal;
    TaskCategoryHealth;
    TaskCategoryHobbies;
    TaskCategoryOther ].

Section WithStrings.

(** [strings.ToLower] and [strings.TrimSpace]; Go's Unicode tables are
    not part of the repository, so the constructor is first written over
    any pair of such functions. *)
Variables ToLower TrimSpace : string -> string.

Definition NewTaskCategoryWith (category : string) : result TaskCategory :=
  let category := ToLower (TrimSpace category) in
  match find (fun validCategory => String.eqb (ToLower validCategory) category)
             AllTaskCategories with
  | Some validCategory => Ok validCategory
  | None => Err (NewDomainError ("invalid task category: " ++ category))
  end.

End WithStrings.

(** [NewTaskCategory] with the model of package [strings] above. *)
Definition NewTaskCategory : string -> result TaskCategory :=
  NewTaskCategoryWith GoStrings.ToLower GoStrings.TrimSpace.

Definition TaskCategory_String (tc : TaskCategory) : string := tc.

Definition IsValid (tc : TaskCategory) : bool :=
  existsb (fun validCategory => String.eqb tc validCategory) AllTaskCategories.

End valueobjects.

(** ** The wall clock

    [time.Now()] is the only effect of the domain layer.  A [Clock] is the
    sequence of readings the program will obtain and the number of readings
    taken so far; a computation that may read it lives in [IO]. *)

Record Clock : Type := mkClock {
  readings : nat -> GoTime.Time;
  ticks : nat
}.

Definition IO (A : Type) : Type := Clock -> A * Clock.

Definition ret {A : Type} (a : A) : IO A := fun c => (a, c).

Definition bind {A B : Type} (m : IO A) (k : A -> IO B) : IO B :=
  fun c => let '(a, c') := m c in k a c'.

Notation "x <- m ;; k" := (bind m (fun x => k))
  (at level 61, m at next level, right associativity).

Definition time_Now : IO GoTime.Time :=
  fun c => (readings c (ticks c), mkClock (readings c) (S (ticks c))).

(** ** Package [internal/domain/entities] *)

Module entities.

Import errors valueobjects.
Local Open Scope string_scope.
Local Open Scope Z_scope.

Definition TaskEntryID : Type := string.
Definition SleepEntryID : Type := string.

(** The implementations of the interface [DomainEvent], one constructor
    per event struct, the arguments in the order of the struct's fields. *)
Inductive DomainEvent : Type :=
| TaskStartedEvent
    (taskEntryID : TaskEntryID) (occurredOn : GoTime.Time)
| StressLevelChangedEvent
    (taskEntryID : TaskEntryID) (stressBefore stressAfter : StressLevel)
    (occurredOn : GoTime.Time)
| SleepEntryCreatedEvent
    (sleepEntryID : SleepEntryID) (date : GoTime.Time) (totalHours : float)
    (quality : SleepQuality) (occurredOn : GoTime.Time)
| SleepLatencyChangedEvent
    (sleepEntryID : SleepEntryID) (oldLatency newLatency : GoTime.Duration)
    (occurredOn : GoTime.Time)
| NightAwakeningRecordedEvent
    (sleepEntryID : SleepEntryID) (awakeningNumber : Z) (occurredOn : GoTime.Time)
| PoorSleepQualityDetectedEvent
    (sleepEntryID : SleepEntryID) (reason : string) (awakenings : Z)
    (quality : option SleepQuality) (occurredOn : GoTime.Time)
| DaytimeSleepinessChangedEvent
    (sleepEntryID : SleepEntryID) (oldSleepiness newSleepiness : DaytimeSleepiness)
    (occurredOn : GoTime.Time)
| SleepQualityUpdatedEvent
    (sleepEntryID : SleepEntryID) (oldQuality newQuality : SleepQuality)
    (occurredOn : GoTime.Time).

Definition EventType (e : DomainEvent) : string :=
  match e with
  | TaskStartedEvent _ _ => "TaskStarted"
  | StressLevelChangedEvent _ _ _ _ => "StressLevelChanged"
  | SleepEntryCreatedEvent _ _ _ _ _ => "SleepEntryCreated"
  | SleepLatencyChangedEvent _ _ _ _ => "SleepLatencyChanged"
  | NightAwakeningRecordedEvent _ _ _ => "NightAwakeningRecorded"
  | PoorSleepQualityDetectedEvent _ _ _ _ _ => "PoorSleepQualityDetected"
  | DaytimeSleepinessChangedEvent _ _ _ _ => "DaytimeSleepinessChanged"
  | SleepQualityUpdatedEvent _ _ _ _ => "SleepQualityUpdated"
  end.

Definition OccurredOn (e : DomainEvent) : GoTime.Time :=
  match e with
  | TaskStartedEvent _ t
  | StressLevelChangedEvent _ _ _ t
  | SleepEntryCreatedEvent _ _ _ _ t
  | SleepLatencyChangedEvent _ _ _ t
  | NightAwakeningRecordedEvent _ _ t
  | PoorSleepQualityDetectedEvent _ _ _ _ t
  | DaytimeSleepinessChangedEvent _ _ _ t
  | SleepQualityUpdatedEvent _ _ _ t => t
  end.

(** *** [TaskEntry] *)

Module TaskEntry.

Record t : Type := mk {
  id : TaskEntryID;
  date : GoTime.Time;
  dayNumber : Z;
  keyTask : string;
  category : TaskCategory;
  stressBefore : StressLevel;
  started : bool;
  startTime : option GoTime.Time;
  activeDuration : GoTime.Duration;
  continuedAfter : bool;
  stressAfter : StressLevel;
  distractions : GoTime.Duration;
  blocksCompleted : Z;
  pomodoroCount : Z;
  lightExposure : GoTime.Duration;
  energy : EnergyLevel;
  mood : MoodLevel;
  notes : string;
  domainEvents : list DomainEvent
}.

(** Assignments to the fields the methods write. *)
Definition set_started (v : bool) (te : t) : t :=
  mk (id te) (date te) (dayNumber te) (keyTask te) (category te) (stressBefore te)
     v (startTime te) (activeDuration te) (continuedAfter te) (stressAfter te)
     (distractions te) (blocksCompleted te) (pomodoroCount te) (lightExposure te)
     (energy te) (mood te) (notes te) (domainEvents te).

Definition set_startTime (v : option GoTime.Time) (te : t) : t :=
  mk (id te) (date te) (dayNumber te) (keyTask te) (category te) (stressBefore te)
     (started te) v (activeDuration te) (continuedAfter te) (stressAfter te)
     (distractions te) (blocksCompleted te) (pomodoroCount te) (lightExposure te)
     (energy te) (mood te) (notes te) (domainEvents te).

Definition set_activeDuration (v : GoTime.Duration) (te : t) : t :=
  mk (id te) (date te) (dayNumber te) (keyTask te) (category te) (stressBefore te)
     (started te) (startTime te) v (continuedAfter te) (stressAfter te)
     (distractions te) (blocksCompleted te) (pomodoroCount te) (lightExposure te)
     (energy te) (mood te) (notes te) (domainEvents te).

Definition set_stressAfter (v : StressLevel) (te : t) : t :=
  mk (id te) (date te) (dayNumber te) (keyTask te) (category te) (stressBefore te)
     (started te) (startTime te) (activeDuration te) (continuedAfter te) v
     (distractions te) (blocksCompleted te) (pomodoroCount te) (lightExposure te)
     (energy te) (mood te) (notes te) (domainEvents te).

Definition set_notes (v : string) (te : t) : t :=
  mk (id te) (date te) (dayNumber te) (keyTask te) (category te) (stressBefore te)
     (started te) (startTime te) (activeDuration te) (continuedAfter te) (stressAfter te)
     (distractions te) (blocksCompleted te) (pomodoroCount te) (lightExposure te)
     (energy te) (mood te) v (domainEvents te).

Definition set_domainEvents (v : list DomainEvent) (te : t) : t :=
  mk (id te) (date te) (dayNumber te) (keyTask te) (category te) (stressBefore te)
     (started te) (startTime te) (activeDuration te) (continuedAfter te) (stressAfter te)
     (distractions te) (blocksCompleted te) (pomodoroCount te) (lightExposure te)
     (energy te) (mood te) (notes te) v.

Definition addDomainEvent (event : DomainEvent) (te : t) : t :=
  set_domainEvents (domainEvents te ++ [event])%list te.

Definition StressAfter (te : t) : StressLevel := stressAfter te.

Definition DomainEvents (te : t) : list DomainEvent := domainEvents te.

Definition StartTask (te : t) : IO (option error * t) :=
  if started te then
    ret (Some (NewDomainError "task already started"), te)
  else
    now <- time_Now ;;
    let te := set_started true te in
    let te := set_startTime (Some now) te in
    let te := addDomainEvent (TaskStartedEvent (id te) now) te in
    ret (None, te).

Definition UpdateDuration (duration : GoTime.Duration) (te : t)
  : IO (option error * t) :=
  if negb (started te) then
    ret (Some (NewDomainError "cannot update duration: task not started"), te)
  else if duration <? 0 then
    ret (Some (NewDomainError "duration cannot be negative"), te)
  else
    ret (None, set_activeDuration duration te).

Definition SetStressAfter (stressLevel : StressLevel) (te : t) : IO t :=
  let te := set_stressAfter stressLevel te in
  now <- time_Now ;;
  ret (addDomainEvent
         (StressLevelChangedEvent (id te) (stressBefore te) stressLevel now) te).

Definition CalculateStressReduction (te : t) : Z :=
  GoInt.sub (stressBefore te) (stressAfter te).

Definition AddNotes (notes : string) (te : t) : t := set_notes notes te.

Definition ClearDomainEvents (te : t) : t := set_domainEvents [] te.

End TaskEntry.

Definition NewTaskEntry
    (id : TaskEntryID) (date : GoTime.Time) (dayNumber : Z) (keyTask : string)
    (category : TaskCategory) (stressBefore : StressLevel)
  : result TaskEntry.t :=
  if String.eqb keyTask "" then
    Err (NewDomainError "key task cannot be empty")
  else if dayNumber <? 1 then
    Err (NewDomainError "day number must be positive")
  else
    Ok (TaskEntry.mk id date dayNumber keyTask category stressBefore
          false            (* started *)
          None 0 false 0 0 0 0 0 0 0 ""   (* the zero values of the other fields *)
          []).

(** *** [SleepEntry] *)

(** [func abs(x int) int]. *)
Definition abs (x : Z) : Z := if x <? 0 then GoInt.neg x else x.

Module SleepEntry.

Record t : Type := mk {
  id : SleepEntryID;
  date : GoTime.Time;
  bedtime : GoTime.Time;
  wakeTime : GoTime.Time;
  sleepLatency : GoTime.Duration;
  nightAwakenings : Z;
  totalSleepHours : float;
  sleepQuality : SleepQuality;
  daytimeSleepiness : DaytimeSleepiness;
  caffeineAfterNoon : bool;
  screenUseBeforeBed : GoTime.Duration;
  eveningFreeTime : GoTime.Duration;
  notes : string;
  domainEvents : list DomainEvent
}.

(** Assignments to the fields the methods write. *)
Definition set_sleepLatency (v : GoTime.Duration) (se : t) : t :=
  mk (id se) (date se) (bedtime se) (wakeTime se) v (nightAwakenings se)
     (totalSleepHours se) (sleepQuality se) (daytimeSleepiness se)
     (caffeineAfterNoon se) (screenUseBeforeBed se) (eveningFreeTime se)
     (notes se) (domainEvents se).

Definition set_nightAwakenings (v : Z) (se : t) : t :=
  mk (id se) (date se) (bedtime se) (wakeTime se) (sleepLatency se) v
     (totalSleepHours se) (sleepQuality se) (daytimeSleepiness se)
     (caffeineAfterNoon se) (screenUseBeforeBed se) (eveningFreeTime se)
     (notes se) (domainEvents se).

Definition set_totalSleepHours (v : float) (se : t) : t :=
  mk (id se) (date se) (bedtime se) (wakeTime se) (sleepLatency se) (nightAwakenings se)
     v (sleepQuality se) (daytimeSleepiness se)
     (caffeineAfterNoon se) (screenUseBeforeBed se) (eveningFreeTime se)
     (notes se) (domainEvents se).

Definition set_sleepQuality (v : SleepQuality) (se : t) : t :=
  mk (id se) (date se) (bedtime se) (wakeTime se) (sleepLatency se) (nightAwakenings se)
     (totalSleepHours se) v (daytimeSleepiness se)
     (caffeineAfterNoon se) (screenUseBeforeBed se) (eveningFreeTime se)
     (notes se) (domainEvents se).

Definition set_daytimeSleepiness (v : DaytimeSleepiness) (se : t) : t :=
  mk (id se) (date se) (bedtime se) (wakeTime se) (sleepLatency se) (nightAwakenings se)
     (totalSleepHours se) (sleepQuality se) v
     (caffeineAfterNoon se) (screenUseBeforeBed se) (eveningFreeTime se)
     (notes se) (domainEvents se).

Definition set_domainEvents (v : list DomainEvent) (se : t) : t :=
  mk (id se) (date se) (bedtime se) (wakeTime se) (sleepLatency se) (nightAwakenings se)
     (totalSleepHours se) (sleepQuality se) (daytimeSleepiness se)
     (caffeineAfterNoon se) (screenUseBeforeBed se) (eveningFreeTime se)
     (notes se) v.

Definition addDomainEvent (event : DomainEvent) (se : t) : t :=
  set_domainEvents (domainEvents se ++ [event])%list se.

Definition TotalSleepHours (se : t) : float := totalSleepHours se.

Definition DomainEvents (se : t) : list DomainEvent := domainEvents se.

Definition SetSleepLatency (latency : GoTime.Duration) (se : t)
  : IO (option error * t) :=
  if latency <? 0 then
    ret (Some (NewDomainError "sleep latency cannot be negative"), se)
  else if latency >? 2 * GoTime.Hour then
    ret (Some (NewDomainError "sleep latency seems too long (over 2 hours)"), se)
  else
    let oldLatency := sleepLatency se in
    let se := set_sleepLatency latency se in
    if negb (oldLatency =? latency) then
      now <- time_Now ;;
      ret (None,
           addDomainEvent (SleepLatencyChangedEvent (id se) oldLatency latency now) se)
    else
      ret (None, se).

Definition RecordNightAwakening (se : t) : IO t :=
  let se := set_nightAwakenings (GoInt.add (nightAwakenings se) 1) se in
  now <- time_Now ;;
  let se :=
    addDomainEvent (NightAwakeningRecordedEvent (id se) (nightAwakenings se) now) se in
  if nightAwakenings se >=? 3 then
    now <- time_Now ;;
    ret (addDomainEvent
           (PoorSleepQualityDetectedEvent
              (id se) "multiple night awakenings" (nightAwakenings se) None now) se)
  else
    ret se.

Definition SetDaytimeSleepiness (sleepiness : DaytimeSleepiness) (se : t) : IO t :=
  let oldSleepiness := daytimeSleepiness se in
  let se := set_daytimeSleepiness sleepiness se in
  if abs (GoInt.sub sleepiness oldSleepiness) >=? 3 then
    now <- time_Now ;;
    ret (addDomainEvent
           (DaytimeSleepinessChangedEvent (id se) oldSleepiness sleepiness now) se)
  else
    ret se.

Definition UpdateSleepQuality (quality : SleepQuality) (se : t) : IO t :=
  let oldQuality := sleepQuality se in
  let se := set_sleepQuality quality se in
  now <- time_Now ;;
  let se := addDomainEvent (SleepQualityUpdatedEvent (id se) oldQuality quality now) se in
  if quality <=? 3 then
    now <- time_Now ;;
    ret (addDomainEvent
           (PoorSleepQualityDetectedEvent
              (id se) "low quality rating" 0 (Some quality) now) se)
  else
    ret se.

Definition IsSleepHealthy (se : t) : bool :=
  (7.0 <=? totalSleepHours se)%float &&
  (totalSleepHours se <=? 9.0)%float &&
  (sleepQuality se >=? 6) &&
  (nightAwakenings se <=? 1).

Definition calculateTotalSleepHours (se : t) : t :=
  let duration := GoTime.Sub (wakeTime se) (bedtime se) in
  let duration :=
    if duration <? 0 then GoInt.add duration (24 * GoTime.Hour) else duration in
  let actualSleepDuration := GoInt.sub duration (sleepLatency se) in
  set_totalSleepHours (GoTime.Hours actualSleepDuration) se.

Definition ClearDomainEvents (se : t) : t := set_domainEvents [] se.

End SleepEntry.

Definition NewSleepEntry
    (id : SleepEntryID) (date bedtime wakeTime : GoTime.Time)
    (sleepQuality : SleepQuality)
  : IO (result SleepEntry.t) :=
  let construct : IO (result SleepEntry.t) :=
    let sleepEntry :=
      SleepEntry.mk id date bedtime wakeTime
        0 0 0%float        (* sleepLatency, nightAwakenings, totalSleepHours *)
        sleepQuality
        0 false 0 0 ""     (* the zero values of the other fields *)
        [] in
    let sleepEntry := SleepEntry.calculateTotalSleepHours sleepEntry in
    now <- time_Now ;;
    ret (Ok (SleepEntry.addDomainEvent
               (SleepEntryCreatedEvent
                  id date (SleepEntry.totalSleepHours sleepEntry) sleepQuality now)
               sleepEntry)) in
  if GoTime.Before wakeTime bedtime then
    let nextDay := GoTime.AddDate bedtime 0 0 1 in
    if GoTime.Before wakeTime
         (GoTime.Date (GoTime.Year nextDay) (GoTime.Month nextDay) (GoTime.Day nextDay)
            0 0 0 0 (GoTime.Location_of wakeTime))
    then ret (Err (NewDomainError "wake time cannot be before bedtime on the same day"))
    else construct
  else construct.

End entities.

(** ** Package [internal/domain/events] *)

Module events.

Local Open Scope string_scope.
Local Open Scope Z_scope.

Inductive EventPriority : Type :=
| PriorityLow
| PriorityNormal
| PriorityHigh
| PriorityCritical.

(** The value [iota] gives each priority. *)
Definition EventPriority_int (p : EventPriority) : Z :=
  match p with
  | PriorityLow => 0
  | PriorityNormal => 1
  | PriorityHigh => 2
  | PriorityCritical => 3
  end.

Record BaseEvent : Type := mkBaseEvent {
  ID : string;
  Type_ : string;          (* the field [Type] *)
  AggregateId : string;
  OccurredAt : GoTime.Time;
  Version : Z
}.

Definition generateEventID : IO string :=
  now <- time_Now ;;
  ret ("event-" ++ GoStrconv.FormatInt10 (GoTime.UnixNano now)).

(** The fields of the struct literal are evaluated in order: the clock is
    read for the identifier first, then for [OccurredAt]. *)
Definition NewBaseEvent (eventType aggregateID : string) : IO BaseEvent :=
  id <- generateEventID ;;
  now <- time_Now ;;
  ret (mkBaseEvent id eventType aggregateID now 1).

Definition EventID (be : BaseEvent) : string := ID be.
Definition EventType (be : BaseEvent) : string := Type_ be.
Definition AggregateID (be : BaseEvent) : string := AggregateId be.
Definition OccurredOn (be : BaseEvent) : GoTime.Time := OccurredAt be.
Definition EventVersion (be : BaseEvent) : Z := Version be.

End events.


(** ** Sequences of method calls

    The public methods that write to an entity, as data, so that a property
    can speak of an entity after any series of calls.  The error a call
    returns is dropped here, as a caller that ignores it would. *)

Module Calls.

Import entities.

Inductive TaskCall : Type :=
| callStartTask
| callUpdateDuration (duration : GoTime.Duration)
| callSetStressAfter (stressLevel : valueobjects.StressLevel)
| callAddNotes (notes : string)
| callClearTaskEvents.

Definition task_call (c : TaskCall) (te : TaskEntry.t) : IO TaskEntry.t :=
  match c with
  | callStartTask => r <- TaskEntry.StartTask te ;; ret (snd r)
  | callUpdateDuration d => r <- TaskEntry.UpdateDuration d te ;; ret (snd r)
  | callSetStressAfter l => TaskEntry.SetStressAfter l te
  | callAddNotes n => ret (TaskEntry.AddNotes n te)
  | callClearTaskEvents => ret (TaskEntry.ClearDomainEvents te)
  end.

Fixpoint task_calls (cs : list TaskCall) (te : TaskEntry.t) : IO TaskEntry.t :=
  match cs with
  | [] => ret te
  | c :: cs => te' <- task_call c te ;; task_calls cs te'
  end.

Inductive SleepCall : Type :=
| callSetSleepLatency (latency : GoTime.Duration)
| callRecordNightAwakening
| callSetDaytimeSleepiness (sleepiness : valueobjects.DaytimeSleepiness)
| callUpdateSleepQuality (quality : valueobjects.SleepQuality)
| callClearSleepEvents.

Definition sleep_call (c : SleepCall) (se : SleepEntry.t) : IO SleepEntry.t :=
  match c with
  | callSetSleepLatency l => r <- SleepEntry.SetSleepLatency l se ;; ret (snd r)
  | callRecordNightAwakening => SleepEntry.RecordNightAwakening se
  | callSetDaytimeSleepiness s => SleepEntry.SetDaytimeSleepiness s se
  | callUpdateSleepQuality q => SleepEntry.UpdateSleepQuality q se
  | callClearSleepEvents => ret (SleepEntry.ClearDomainEvents se)
  end.

Fixpoint sleep_calls (cs : list SleepCall) (se : SleepEntry.t) : IO SleepEntry.t :=
  match cs with
  | [] => ret se
  | c :: cs => se' <- sleep_call c se ;; sleep_calls cs se'
  end.

(** The events of [events] whose [EventType] is [ty]. *)
Definition countType (ty : string) (events : list DomainEvent) : nat :=
  List.length (filter (fun e => String.eqb (EventType e) ty) events).

(** The events a buffer gained between two states of an entity. *)
Definition appended (before after : list DomainEvent) : list DomainEvent :=
  skipn (List.length before) after.

End Calls.

(** ** The properties of the specification, as predicates *)

Module Spec.

Import errors valueobjects entities.
Local Open Scope string_scope.
Local Open Scope Z_scope.

(** A bounded scale constructor [ctor] at the integer [n]: it succeeds
    exactly on [0..10], and what it returns on failure is an error of the
    kind [kind]. *)
Definition bounded_scale (kind : error -> bool) (ctor : Z -> result Z) (n : Z) : Prop :=
  ((exists v, ctor n = Ok v) <-> 0 <= n <= 10) /\
  (forall e, ctor n = Err e -> kind e = true).

(** The category constructor at the input [s], for the canonical tokens
    [tokens]: an input that trims and folds to a token yields that token, any
    other input yields an error. *)
Definition category_construction (tokens : list string) (s : string) : Prop :=
  let folded := GoStrings.ToLower (GoStrings.TrimSpace s) in
  (forall c, In c tokens -> folded = c -> NewTaskCategory s = Ok c) /\
  (~ In folded tokens -> exists e, NewTaskCategory s = Err e).

(** The tokens as the specification spells them. *)
Definition spec_tokens : list string :=
  ["work"; "study"; "personal"; "health"; "hobbies"; "other"].

(** Healthy sleep: total hours in [7,9], quality at least 6, at most one
    night awakening.  The hours are a binary64 value; a NaN is in no
    interval. *)
Definition hours_in_7_9 (se : SleepEntry.t) : Prop :=
  (7 <=? SleepEntry.totalSleepHours se)%float = true /\
  (SleepEntry.totalSleepHours se <=? 9)%float = true.

Definition quality_at_least_6 (se : SleepEntry.t) : Prop :=
  6 <= SleepEntry.sleepQuality se.

Definition awakenings_at_most_1 (se : SleepEntry.t) : Prop :=
  SleepEntry.nightAwakenings se <= 1.

Definition healthy_sleep (se : SleepEntry.t) : Prop :=
  hours_in_7_9 se /\ quality_at_least_6 se /\ awakenings_at_most_1 se.

(** The rollover of the specification: 24 hours added to a negative
    difference. *)
Definition rolled_over (d : Z) : Z := if d <? 0 then d + 24 * GoTime.Hour else d.

End Spec.

(** ** Sample values

    The entries of the repository's tests and of the specification's
    examples, and a clock whose n-th reading is n nanoseconds after the
    epoch. *)

Module Samples.

Import valueobjects entities.
Local Open Scope string_scope.
Local Open Scope Z_scope.

Definition clock0 : Clock :=
  mkClock (fun n => GoTime.mkTime (Z.of_nat n) GoTime.UTC) 0.

Definition day0 : GoTime.Time := GoTime.Date 2025 8 11 0 0 0 0 GoTime.UTC.

(** [createValidTaskEntry] of [task_entry_test.go]. *)
Definition task0 : result TaskEntry.t :=
  NewTaskEntry "test-id-123" day0 1 "Test task" TaskCategoryWork 7.

(** The sleep row of the origin data: bedtime 00:30, wake 08:00, quality 6. *)
Definition bedtime0 : GoTime.Time := GoTime.Date 2025 8 11 0 30 0 0 GoTime.UTC.
Definition wakeTime0 : GoTime.Time := GoTime.Date 2025 8 11 8 0 0 0 GoTime.UTC.

Definition sleep0 : IO (result SleepEntry.t) :=
  NewSleepEntry "sleep-1" day0 bedtime0 wakeTime0 6.

(** An overnight sleep entered with both clock times on the same date:
    to bed at 23:00, up at 07:00. *)
Definition bedtime1 : GoTime.Time := GoTime.Date 2025 8 11 23 0 0 0 GoTime.UTC.
Definition wakeTime1 : GoTime.Time := GoTime.Date 2025 8 11 7 0 0 0 GoTime.UTC.

End Samples.

(** ** Views for the proofs

    The same code in the forms the proofs work with: the shape the five
    scale constructors share, the day count of [Date], [civil] by era, the
    constructor's validation as one boolean. *)

Module Views.

Import errors valueobjects entities.
Local Open Scope string_scope.
Local Open Scope Z_scope.

(** The shape all five constructors share. *)
Definition guarded (msg : string) (n : Z) : result Z :=
  if (n <? 0) || (n >? 10) then Err (NewDomainError msg) else Ok n.

(** The day number [Date] counts for an in-range month. *)
Definition dayCount (year month day : Z) : Z :=
  GoTime.daysSinceEpoch year + GoTime.daysBefore (month - 1)
  + (if GoTime.isLeap year && (3 <=? month) then 1 else 0) + (day - 1).




(** The entry the constructor fills in before it computes the hours. *)
Definition blank id date bedtime wakeTime quality : SleepEntry.t :=
  SleepEntry.mk id date bedtime wakeTime 0 0 0%float quality 0 false 0 0 "" [].

(** The constructor's validation: [true] when it returns the error. *)
Definition rejected (bedtime wakeTime : GoTime.Time) : bool :=
  GoTime.Before wakeTime bedtime &&
  (let nextDay := GoTime.AddDate bedtime 0 0 1 in
   GoTime.Before wakeTime
     (GoTime.Date (GoTime.Year nextDay) (GoTime.Month nextDay) (GoTime.Day nextDay)
        0 0 0 0 (GoTime.Location_of wakeTime))).

End Views.

(** ** Traces

    What a series of calls contains, and the fields of an entity that no
    method writes, for the properties that hold of every series. *)

Module Traces.

Import entities Calls.

Definition is_StartTask (c : TaskCall) : bool :=
  match c with callStartTask => true | _ => false end.

Definition clears_task (c : TaskCall) : bool :=
  match c with callClearTaskEvents => true | _ => false end.

Definition clears_sleep (c : SleepCall) : bool :=
  match c with callClearSleepEvents => true | _ => false end.

Definition is_RecordNightAwakening (c : SleepCall) : bool :=
  match c with callRecordNightAwakening => true | _ => false end.

(** The number of [RecordNightAwakening] calls in a series. *)
Definition awakenings_in (calls : list SleepCall) : Z :=
  Z.of_nat (List.length (filter is_RecordNightAwakening calls)).

(** The fields of a [TaskEntry] that have a getter and no method to set
    them. *)
Definition task_constants (te : TaskEntry.t) :=
  (TaskEntry.id te, TaskEntry.date te, TaskEntry.dayNumber te, TaskEntry.keyTask te,
   TaskEntry.category te, TaskEntry.stressBefore te,
   (TaskEntry.continuedAfter te, TaskEntry.distractions te, TaskEntry.blocksCompleted te,
    TaskEntry.pomodoroCount te, TaskEntry.lightExposure te, TaskEntry.energy te,
    TaskEntry.mood te)).

(** The same for a [SleepEntry]. *)
Definition sleep_constants (se : SleepEntry.t) :=
  (SleepEntry.id se, SleepEntry.date se, SleepEntry.bedtime se, SleepEntry.wakeTime se,
   (SleepEntry.caffeineAfterNoon se, SleepEntry.screenUseBeforeBed se,
    SleepEntry.eveningFreeTime se, SleepEntry.notes se)).

(** What holds of a [TaskEntry] between calls. *)
Definition task_invariant (te : TaskEntry.t) : Prop :=
  (TaskEntry.started te = true <-> TaskEntry.startTime te <> None) /\
  0 <= TaskEntry.activeDuration te /\
  (TaskEntry.activeDuration te <> 0 -> TaskEntry.started te = true).

(** The buffer [after] is the buffer [before] with events appended to it,
    one for each reading taken from the clock between [c] and [c'], each
    stamped with its reading, in order. *)
Definition recorded (before after : list DomainEvent) (c c' : Clock) : Prop :=
  exists new,
    after = (before ++ new)%list /\
    readings c' = readings c /\
    ticks c' = (ticks c + List.length new)%nat /\
    map OccurredOn new = map (readings c) (seq (ticks c) (List.length new)).

End Traces.

(** ** The messages of the entities' errors *)

Module Messages.

Local Open Scope string_scope.

(** Every message an entity's constructor or method passes to
    [NewDomainError]. *)
Definition entity_messages : list string :=
  [ "key task cannot be empty";
    "day number must be positive";
    "task already started";
    "cannot update duration: task not started";
    "duration cannot be negative";
    "wake time cannot be before bedtime on the same day";
    "sleep latency cannot be negative";
    "sleep latency seems too long (over 2 hours)" ].

End Messages.

(** * Properties *)

(** Runs the clock monad in the goal and the hypotheses. *)
Ltac run_io := unfold bind, ret, time_Now in *; cbn [fst snd] in *.

(** ** Machine integers *)

Module GoIntFacts.

Import GoInt.

Lemma wrap64_small (z : Z) : in_int64 z -> wrap64 z = z.
Proof.
  unfold in_int64, wrap64, minInt64, maxInt64. intros H.
  rewrite Z.mod_small by lia. lia.
Qed.

Lemma wrap64_range (z : Z) : in_int64 (wrap64 z).
Proof.
  unfold in_int64, wrap64, minInt64, maxInt64.
  pose proof (Z.mod_pos_bound (z + 2 ^ 63) (2 ^ 64) ltac:(lia)). lia.
Qed.

Lemma sub_zero (a : Z) : in_int64 a -> sub a 0 = a.
Proof. intros H. unfold sub. rewrite Z.sub_0_r. now apply wrap64_small. Qed.

End GoIntFacts.

(** ** Bounded scales *)

Module ScaleFacts.

Import errors valueobjects Spec Views.

Lemma guarded_in_range (msg : string) (n : Z) :
  0 <= n <= 10 -> guarded msg n = Ok n.
Proof.
  intros H. unfold guarded.
  destruct (n <? 0) eqn:Elo; [apply Z.ltb_lt in Elo; lia|].
  destruct (n >? 10) eqn:Ehi; [apply Z.gtb_lt in Ehi; lia|].
  reflexivity.
Qed.

Lemma guarded_out_of_range (msg : string) (n : Z) :
  ~ 0 <= n <= 10 -> guarded msg n = Err (NewDomainError msg).
Proof.
  intros H. unfold guarded.
  destruct (n <? 0) eqn:Elo; [reflexivity|].
  destruct (n >? 10) eqn:Ehi; [reflexivity|].
  apply Z.ltb_ge in Elo. rewrite Z.gtb_ltb in Ehi. apply Z.ltb_ge in Ehi. lia.
Qed.

Lemma guarded_bounded_scale (msg : string) (n : Z) :
  bounded_scale IsDomainError (guarded msg) n /\
  (0 <= n <= 10 -> guarded msg n = Ok n).
Proof.
  split; [split|]; [split | |].
  - intros [v Hv]. destruct (Z_le_dec 0 n) as [H0|H0], (Z_le_dec n 10) as [H1|H1];
      try lia; rewrite guarded_out_of_range in Hv by lia; discriminate.
  - intros H. exists n. now apply guarded_in_range.
  - intros e He. destruct (Z_le_dec 0 n) as [H0|H0], (Z_le_dec n 10) as [H1|H1];
      try (rewrite guarded_out_of_range in He by lia; injection He as <-; reflexivity).
    rewrite guarded_in_range in He by lia. discriminate.
  - apply guarded_in_range.
Qed.

(** C6, as amended.  For every integer [n] each of the five bounded scale
    constructors (stress, energy, mood, sleep quality, daytime sleepiness)
    succeeds if and only if [0 <= n <= 10], then returning [n] itself, and
    what it returns on failure is a [DomainError] (code [DOMAIN_ERROR]),
    which [IsDomainError] accepts and [IsValidationError] does not. *)
Theorem bounded_scale_constructors (n : Z) :
  Forall (fun ctor =>
            bounded_scale IsDomainError ctor n /\
            (0 <= n <= 10 -> ctor n = Ok n) /\
            (forall e, ctor n = Err e ->
               IsValidationError e = false /\
               exists msg, e = ofDomainError (mkDomainError msg "DOMAIN_ERROR")))
    [NewStressLevel; NewEnergyLevel; NewMoodLevel; NewSleepQuality; NewDaytimeSleepiness].
Proof.
  assert (Hall : forall msg,
             bounded_scale IsDomainError (guarded msg) n /\
             (0 <= n <= 10 -> guarded msg n = Ok n) /\
             (forall e, guarded msg n = Err e ->
                IsValidationError e = false /\
                exists m, e = ofDomainError (mkDomainError m "DOMAIN_ERROR"))).
  { intros msg. destruct (guarded_bounded_scale msg n) as [Hb Hok].
    split; [exact Hb | split; [exact Hok |]].
    intros e He. unfold guarded in He.
    destruct ((n <? 0) || (n >? 10)); [|discriminate].
    injection He as <-. split; [reflexivity | now exists msg]. }
  repeat apply Forall_cons; try apply Forall_nil.
  - exact (Hall "stress level must be between 0 and 10"%string).
  - exact (Hall "energy level must be between 0 and 10"%string).
  - exact (Hall "mood level must be between 0 and 10"%string).
  - exact (Hall "sleep quality must be between 0 and 10"%string).
  - exact (Hall "daytime sleepiness must be between 0 and 10"%string).
Qed.

(** A level in range and one above it. *)
Lemma bounded_scale_constructors_witness :
  NewStressLevel 7 = Ok 7 /\
  exists e, NewStressLevel 11 = Err e /\ IsValidationError e = false.
Proof.
  split.
  - apply (proj1 (proj2 (Forall_inv (bounded_scale_constructors 7)))). lia.
  - eexists. split; [reflexivity|].
    apply (proj2 (proj2 (Forall_inv (bounded_scale_constructors 11)))). reflexivity.
Defined.

(** C6, as stated, fails: the error [NewStressLevel 11] returns is not a
    field-validation error. *)
Lemma bounded_scale_not_field_validation :
  ~ bounded_scale IsValidationError NewStressLevel 11.
Proof.
  intros [_ H]. specialize (H _ eq_refl). discriminate H.
Qed.

End ScaleFacts.

(** ** Task categories *)

Module CategoryFacts.

Import errors valueobjects Spec.
Local Open Scope string_scope.

Section AnyStrings.

(** Any lower-casing and trimming functions, as long as lower-casing leaves
    the six tokens alone (they are written in lower case). *)
Variables ToLower TrimSpace : string -> string.
Hypothesis tokens_lower : forall c, In c AllTaskCategories -> ToLower c = c.

Lemma find_token (x : string) (l : list string) :
  (forall c, In c l -> ToLower c = c) ->
  (In x l -> find (fun v => String.eqb (ToLower v) x) l = Some x) /\
  (~ In x l -> find (fun v => String.eqb (ToLower v) x) l = None).
Proof.
  induction l as [|a l IH]; intros Hfix.
  - split; [intros [] | reflexivity].
  - assert (Ha : ToLower a = a) by (apply Hfix; now left).
    destruct IH as [IHin IHout]; [intros c Hc; apply Hfix; now right|].
    cbn [find]. rewrite Ha.
    destruct (String.eqb a x) eqn:E.
    + apply String.eqb_eq in E. subst a. split; [reflexivity | intros H; exfalso; apply H; now left].
    + apply String.eqb_neq in E. split.
      * intros [H|H]; [contradiction | now apply IHin].
      * intros H. apply IHout. intros Hin. apply H. now right.
Qed.

Lemma NewTaskCategoryWith_token (s c : string) :
  In c AllTaskCategories -> ToLower (TrimSpace s) = c ->
  NewTaskCategoryWith ToLower TrimSpace s = Ok c.
Proof.
  intros Hin Hc. unfold NewTaskCategoryWith.
  destruct (find_token (ToLower (TrimSpace s)) AllTaskCategories tokens_lower) as [H _].
  rewrite H by (rewrite Hc; exact Hin). now rewrite Hc.
Qed.

Lemma NewTaskCategoryWith_other (s : string) :
  ~ In (ToLower (TrimSpace s)) AllTaskCategories ->
  NewTaskCategoryWith ToLower TrimSpace s =
  Err (NewDomainError ("invalid task category: " ++ ToLower (TrimSpace s))).
Proof.
  intros Hout. unfold NewTaskCategoryWith.
  destruct (find_token (ToLower (TrimSpace s)) AllTaskCategories tokens_lower) as [_ H].
  now rewrite H.
Qed.

End AnyStrings.

(** The model of [strings.ToLower] leaves the six tokens as they are. *)
Lemma ToLower_tokens (c : string) :
  In c AllTaskCategories -> GoStrings.ToLower c = c.
Proof.
  intros H. repeat (destruct H as [<-|H]; [vm_compute; reflexivity|]). destruct H.
Qed.

(** The repository's own test cases ([TestNewTaskCategory_Valid] and
    [TestNewTaskCategory_Invalid]). *)
Example NewTaskCategory_tests :
  NewTaskCategory "работа" = Ok TaskCategoryWork /\
  NewTaskCategory "РАБОТА" = Ok TaskCategoryWork /\
  NewTaskCategory " работа " = Ok TaskCategoryWork /\
  NewTaskCategory "учеба" = Ok TaskCategoryStudy /\
  NewTaskCategory "invalid_category"
    = Err (NewDomainError "invalid task category: invalid_category") /\
  NewTaskCategory "спорт" = Err (NewDomainError "invalid task category: спорт") /\
  NewTaskCategory "" = Err (NewDomainError "invalid task category: ").
Proof. repeat split; vm_compute; reflexivity. Qed.

(** C3, as amended.  The six canonical tokens are the Russian words
    работа, учеба, личное, здоровье, хобби, другое: every input that trims
    and folds to one of them yields that token, and every other input yields
    an error, which is a [DomainError]. *)
Theorem NewTaskCategory_canonical (s : string) :
  category_construction AllTaskCategories s /\
  (forall e, NewTaskCategory s = Err e -> IsDomainError e = true).
Proof.
  split; [split|].
  - intros c Hin Hc. apply (NewTaskCategoryWith_token _ _ ToLower_tokens); assumption.
  - intros Hout. eexists. apply (NewTaskCategoryWith_other _ _ ToLower_tokens). exact Hout.
  - intros e He. unfold NewTaskCategory, NewTaskCategoryWith in He.
    match type of He with match ?f with _ => _ end = _ => destruct f end;
      [discriminate|]. now injection He as <-.
Qed.

(** The upper-case token between spaces, and the English word. *)
Lemma NewTaskCategory_canonical_witness :
  NewTaskCategory " РАБОТА " = Ok TaskCategoryWork /\
  exists e, NewTaskCategory "work" = Err e.
Proof.
  split.
  - apply (proj1 (proj1 (NewTaskCategory_canonical " РАБОТА "))).
    + now left.
    + vm_compute. reflexivity.
  - apply (proj2 (proj1 (NewTaskCategory_canonical "work"))).
    vm_compute. intros H.
    repeat (destruct H as [H|H]; [discriminate H|]). exact H.
Defined.

(** C3, as stated, fails: the input [work] trims and folds to the token
    [work] of the specification, and is rejected. *)
Lemma NewTaskCategory_rejects_work :
  ~ category_construction spec_tokens "work".
Proof.
  intros [H _]. specialize (H "work").
  assert (Hin : In "work" spec_tokens) by (now left).
  specialize (H Hin eq_refl). vm_compute in H. discriminate H.
Qed.

End CategoryFacts.

(** ** [TaskEntry] *)

Module TaskFacts.

Import errors valueobjects entities Calls Spec.
Local Open Scope string_scope.
Local Open Scope Z_scope.

(** What a successful [NewTaskEntry] returns, and when. *)
Lemma NewTaskEntry_ok id date dayNumber keyTask category stressBefore te :
  NewTaskEntry id date dayNumber keyTask category stressBefore = Ok te ->
  keyTask <> "" /\ 1 <= dayNumber /\
  te = TaskEntry.mk id date dayNumber keyTask category stressBefore
         false None 0 false 0 0 0 0 0 0 0 "" [].
Proof.
  unfold NewTaskEntry. intros H.
  destruct (String.eqb keyTask "") eqn:Ek; [discriminate|].
  destruct (dayNumber <? 1) eqn:Ed; [discriminate|].
  apply String.eqb_neq in Ek. apply Z.ltb_ge in Ed.
  injection H as <-. repeat split; assumption.
Qed.

Lemma NewTaskEntry_total id date dayNumber keyTask category stressBefore :
  keyTask <> "" -> 1 <= dayNumber ->
  exists te, NewTaskEntry id date dayNumber keyTask category stressBefore = Ok te.
Proof.
  intros Hk Hd. unfold NewTaskEntry.
  apply String.eqb_neq in Hk. rewrite Hk.
  apply Z.ltb_ge in Hd. rewrite Hd. eexists. reflexivity.
Qed.

(** C10.  On a freshly created [TaskEntry], before any [SetStressAfter]
    call, [StressAfter()] is the zero level and [CalculateStressReduction()]
    is the integer value of the [stressBefore] given to the constructor
    (any value of the Go type [int]). *)
Theorem fresh_task_stress id date dayNumber keyTask category stressBefore te :
  GoInt.in_int64 stressBefore ->
  NewTaskEntry id date dayNumber keyTask category stressBefore = Ok te ->
  TaskEntry.StressAfter te = 0 /\
  TaskEntry.CalculateStressReduction te = stressBefore.
Proof.
  intros Hint Hnew. apply NewTaskEntry_ok in Hnew as (_ & _ & ->).
  split; [reflexivity|].
  unfold TaskEntry.CalculateStressReduction. cbn [TaskEntry.stressBefore TaskEntry.stressAfter].
  now apply GoIntFacts.sub_zero.
Qed.

(** The entry of the repository's tests: stress 7 before, none recorded after. *)
Lemma fresh_task_stress_witness :
  exists te,
    Samples.task0 = Ok te /\
    TaskEntry.StressAfter te = 0 /\
    TaskEntry.CalculateStressReduction te = 7.
Proof.
  eexists. split; [reflexivity|].
  apply (fresh_task_stress "test-id-123" Samples.day0 1 "Test task" TaskCategoryWork 7).
  - unfold GoInt.in_int64, GoInt.minInt64, GoInt.maxInt64. lia.
  - reflexivity.
Defined.

(** *** Failed calls *)

Lemma StartTask_error te c e te' c' :
  TaskEntry.StartTask te c = (Some e, te', c') ->
  TaskEntry.started te = true /\ te' = te /\ c' = c /\
  e = NewDomainError "task already started".
Proof.
  unfold TaskEntry.StartTask. destruct (TaskEntry.started te); run_io; intros H.
  - injection H as <- <- <-. repeat split.
  - discriminate.
Qed.

Lemma UpdateDuration_error d te c e te' c' :
  TaskEntry.UpdateDuration d te c = (Some e, te', c') ->
  te' = te /\ c' = c /\ IsDomainError e = true.
Proof.
  unfold TaskEntry.UpdateDuration.
  destruct (negb (TaskEntry.started te)); [|destruct (d <? 0)]; run_io; intros H;
    try discriminate; injection H as <- <- <-; repeat split.
Qed.

(** *** Starting *)

Lemma StartTask_fresh te c :
  TaskEntry.started te = false ->
  TaskEntry.StartTask te c =
  (None,
   TaskEntry.addDomainEvent (TaskStartedEvent (TaskEntry.id te) (readings c (ticks c)))
     (TaskEntry.set_startTime (Some (readings c (ticks c)))
        (TaskEntry.set_started true te)),
   mkClock (readings c) (S (ticks c))).
Proof. unfold TaskEntry.StartTask. intros ->. reflexivity. Qed.

Lemma StartTask_started te c :
  TaskEntry.started te = true ->
  TaskEntry.StartTask te c = (Some (NewDomainError "task already started"), te, c).
Proof. unfold TaskEntry.StartTask. intros ->. reflexivity. Qed.

(** No method resets the [started] flag. *)
Lemma task_call_started call te c :
  TaskEntry.started te = true ->
  TaskEntry.started (fst (task_call call te c)) = true.
Proof.
  intros Hs. destruct call; cbn [task_call]; run_io.
  - rewrite StartTask_started by assumption. exact Hs.
  - unfold TaskEntry.UpdateDuration. rewrite Hs. cbn [negb].
    destruct (duration <? 0); exact Hs.
  - exact Hs.
  - exact Hs.
  - exact Hs.
Qed.

Lemma task_calls_started calls te c :
  TaskEntry.started te = true ->
  TaskEntry.started (fst (task_calls calls te c)) = true.
Proof.
  revert te c. induction calls as [|call calls IH]; intros te c Hs.
  - exact Hs.
  - cbn [task_calls]. unfold bind.
    pose proof (task_call_started call te c Hs) as H1.
    destruct (task_call call te c) as [te1 c1]. apply IH. exact H1.
Qed.

(** The repository's tests [TestTaskEntry_UpdateDuration],
    [TestTaskEntry_UpdateDuration_NegativeDuration] and
    [TestTaskEntry_CalculateStressReduction], on the entry of
    [createValidTaskEntry]. *)
Example TaskEntry_tests :
  exists te,
    Samples.task0 = Ok te /\
    (exists e, fst (fst (TaskEntry.UpdateDuration (30 * GoTime.Minute) te Samples.clock0))
               = Some e) /\
    (let te1 := snd (fst (TaskEntry.StartTask te Samples.clock0)) in
     let r := fst (TaskEntry.UpdateDuration (25 * GoTime.Minute) te1 Samples.clock0) in
     fst r = None /\ TaskEntry.activeDuration (snd r) = 25 * GoTime.Minute /\
     exists e, fst (fst (TaskEntry.UpdateDuration (-10 * GoTime.Minute) te1 Samples.clock0))
               = Some e) /\
    (let te1 := fst (TaskEntry.SetStressAfter 3 te Samples.clock0) in
     map EventType (TaskEntry.DomainEvents te1) = ["StressLevelChanged"] /\
     TaskEntry.CalculateStressReduction te1 = 7 - 3).
Proof.
  eexists. split; [reflexivity|].
  split; [eexists; reflexivity|].
  split; [split; [reflexivity | split; [reflexivity | eexists; reflexivity]]|].
  split; vm_compute; reflexivity.
Qed.

(** C5.  On a freshly created [TaskEntry] the first [StartTask] succeeds,
    sets [started], records the time read from the clock as start time and
    appends exactly one [TaskStarted] event to the empty buffer; after that,
    whatever other calls were made in between, every [StartTask] returns a
    [DomainError] and leaves the entry, its events included, as it was. *)
Theorem StartTask_only_once id date dayNumber keyTask category stressBefore te c :
  NewTaskEntry id date dayNumber keyTask category stressBefore = Ok te ->
  TaskEntry.domainEvents te = [] /\
  exists now te1 c1,
    TaskEntry.StartTask te c = (None, te1, c1) /\
    TaskEntry.started te1 = true /\
    TaskEntry.startTime te1 = Some now /\
    TaskEntry.domainEvents te1 = [TaskStartedEvent id now] /\
    EventType (TaskStartedEvent id now) = "TaskStarted" /\
    forall calls c2 te2 c3,
      task_calls calls te1 c2 = (te2, c3) ->
      exists e,
        TaskEntry.StartTask te2 c3 = (Some e, te2, c3) /\
        IsDomainError e = true.
Proof.
  intros Hnew. apply NewTaskEntry_ok in Hnew as (_ & _ & ->).
  split; [reflexivity|].
  eexists _, _, _. split; [apply StartTask_fresh; reflexivity|].
  repeat (split; [reflexivity|]).
  intros calls c2 te2 c3 Hrun.
  exists (NewDomainError "task already started"). split; [|reflexivity].
  apply StartTask_started.
  match type of Hrun with
  | task_calls _ ?te1 _ = _ => pose proof (task_calls_started calls te1 c2 eq_refl) as Hs
  end.
  rewrite Hrun in Hs. exact Hs.
Qed.

(** The test entry, started, then given a duration and a stress level, then
    started again. *)
Lemma StartTask_only_once_witness :
  exists te,
    Samples.task0 = Ok te /\
    exists now te1 c1,
      TaskEntry.StartTask te Samples.clock0 = (None, te1, c1) /\
      TaskEntry.domainEvents te1 = [TaskStartedEvent "test-id-123" now] /\
      exists te2 c3 e,
        task_calls [callUpdateDuration (25 * GoTime.Minute); callSetStressAfter 3] te1 c1
          = (te2, c3) /\
        TaskEntry.StartTask te2 c3 = (Some e, te2, c3).
Proof.
  eexists. split; [reflexivity|].
  destruct (StartTask_only_once "test-id-123" Samples.day0 1 "Test task"
              TaskCategoryWork 7 _ Samples.clock0 eq_refl)
    as (_ & now & te1 & c1 & Hstart & _ & _ & Hev & _ & Hagain).
  exists now, te1, c1. split; [exact Hstart|]. split; [exact Hev|].
  destruct (task_calls [callUpdateDuration (25 * GoTime.Minute); callSetStressAfter 3] te1 c1)
    as [te2 c3] eqn:Hrun.
  destruct (Hagain _ _ _ _ Hrun) as (e & He & _).
  exists te2, c3, e. split; [reflexivity | exact He].
Defined.

End TaskFacts.

(** ** Package [time] *)

Module GoTimeFacts.

Import GoInt GoTime Views.

Lemma Sub_exact (t u : Time) :
  minDuration <= unixNano t - unixNano u <= maxDuration ->
  Sub t u = unixNano t - unixNano u.
Proof.
  intros [Hlo Hhi]. unfold Sub.
  apply Z.leb_le in Hlo, Hhi. now rewrite Hlo, Hhi.
Qed.

Lemma Sub_range (t u : Time) : in_int64 (Sub t u).
Proof.
  unfold Sub, in_int64, minDuration, maxDuration.
  destruct (minInt64 <=? unixNano t - unixNano u) eqn:Hlo;
    destruct (unixNano t - unixNano u <=? maxInt64) eqn:Hhi; cbn [andb];
    try (destruct (Before t u); unfold minInt64, maxInt64; lia).
  apply Z.leb_le in Hlo, Hhi. lia.
Qed.


(** *** Days and dates *)









(** *** [Date], [Clock] and [AddDate] *)

Lemma norm_small (hi lo base : Z) : 0 <= lo < base -> norm hi lo base = (hi, lo).
Proof.
  intros H. unfold norm. rewrite Z.div_small, Z.mod_small by lia.
  now rewrite Z.add_0_r.
Qed.

(** [Date] on a time of day that is in range: only the month is
    normalised. *)
Lemma Date_clock_in_range (y m d h mi s ns : Z) (loc : Location) :
  0 <= h < 24 -> 0 <= mi < 60 -> 0 <= s < 60 -> 0 <= ns < 1000000000 ->
  Date y m d h mi s ns loc =
  mkTime ((dayCount (fst (norm y (m - 1) 12)) (snd (norm y (m - 1) 12) + 1) d * secondsPerDay
           + (h * 3600 + mi * 60 + s) - zoneOffset loc) * Second + ns) loc.
Proof.
  intros Hh Hmi Hs Hns. unfold Date.
  destruct (norm y (m - 1) 12) as [y' m']. cbv beta iota zeta. cbn [fst snd].
  rewrite (norm_small s ns) by lia. cbv beta iota zeta.
  rewrite (norm_small mi s) by lia. cbv beta iota zeta.
  rewrite (norm_small h mi) by lia. cbv beta iota zeta.
  rewrite (norm_small d h) by lia. cbv beta iota zeta.
  unfold dayCount. replace (m' + 1 - 1) with m' by ring.
  destruct (isLeap y' && (3 <=? m' + 1)); f_equal; ring.
Qed.








End GoTimeFacts.

(** ** [SleepEntry] *)

Module SleepFacts.

Import errors valueobjects entities Calls Spec Views.
Local Open Scope string_scope.
Local Open Scope Z_scope.

(** *** Construction *)

Lemma NewSleepEntry_cases id date bedtime wakeTime quality c :
  NewSleepEntry id date bedtime wakeTime quality c =
  if rejected bedtime wakeTime then
    (Err (NewDomainError "wake time cannot be before bedtime on the same day"), c)
  else
    let se := SleepEntry.calculateTotalSleepHours (blank id date bedtime wakeTime quality) in
    (Ok (SleepEntry.addDomainEvent
           (SleepEntryCreatedEvent id date (SleepEntry.totalSleepHours se) quality
              (readings c (ticks c))) se),
     mkClock (readings c) (S (ticks c))).
Proof.
  unfold NewSleepEntry, rejected. cbv zeta.
  destruct (GoTime.Before wakeTime bedtime); [|reflexivity].
  cbn [andb]. destruct (GoTime.Before wakeTime _); reflexivity.
Qed.

Lemma NewSleepEntry_ok id date bedtime wakeTime quality c se c' :
  NewSleepEntry id date bedtime wakeTime quality c = (Ok se, c') ->
  rejected bedtime wakeTime = false /\
  se = SleepEntry.addDomainEvent
         (SleepEntryCreatedEvent id date
            (SleepEntry.totalSleepHours
               (SleepEntry.calculateTotalSleepHours (blank id date bedtime wakeTime quality)))
            quality (readings c (ticks c)))
         (SleepEntry.calculateTotalSleepHours (blank id date bedtime wakeTime quality)).
Proof.
  rewrite NewSleepEntry_cases. destruct (rejected bedtime wakeTime); [discriminate|].
  cbv zeta. intros H. injection H as <- <-. split; reflexivity.
Qed.



(** *** Total sleep hours *)

Lemma calculateTotalSleepHours_blank id date bedtime wakeTime quality :
  SleepEntry.totalSleepHours
    (SleepEntry.calculateTotalSleepHours (blank id date bedtime wakeTime quality))
  = GoTime.Hours (rolled_over (GoTime.Sub wakeTime bedtime) - 0).
Proof.
  unfold SleepEntry.calculateTotalSleepHours, blank, rolled_over. cbv zeta.
  cbn [SleepEntry.totalSleepHours SleepEntry.set_totalSleepHours SleepEntry.wakeTime
       SleepEntry.bedtime SleepEntry.sleepLatency].
  pose proof (GoTimeFacts.Sub_range wakeTime bedtime) as Hr.
  f_equal. unfold GoInt.sub, GoInt.add.
  destruct (GoTime.Sub wakeTime bedtime <? 0) eqn:Hneg.
  - apply Z.ltb_lt in Hneg.
    assert (Hin : GoInt.in_int64 (GoTime.Sub wakeTime bedtime + 24 * GoTime.Hour)).
    { unfold GoInt.in_int64, GoInt.minInt64, GoInt.maxInt64 in *.
      change (24 * GoTime.Hour) with 86400000000000. lia. }
    rewrite (GoIntFacts.wrap64_small _ Hin).
    rewrite Z.sub_0_r. now rewrite GoIntFacts.wrap64_small.
  - rewrite Z.sub_0_r. now rewrite GoIntFacts.wrap64_small.
Qed.

Lemma Date_0030_0800 (y m d : Z) (loc : GoTime.Location) :
  GoTime.unixNano (GoTime.Date y m d 8 0 0 0 loc)
  = GoTime.unixNano (GoTime.Date y m d 0 30 0 0 loc) + 27000000000000.
Proof.
  rewrite !GoTimeFacts.Date_clock_in_range by lia. cbn [GoTime.unixNano].
  change GoTime.Second with 1000000000. unfold GoTime.secondsPerDay. lia.
Qed.

Lemma Hours_7_5 : GoTime.Hours 27000000000000 = 7.5%float.
Proof. vm_compute. reflexivity. Qed.

(** C9.  At construction the total sleep hours are [Hours()] of the
    duration [wakeTime.Sub(bedtime)], 24 hours added to it when it is
    negative, minus the sleep latency, which is zero then; [Sub] is the exact
    difference of the two instants whenever that fits a [Duration].  An entry
    with bedtime 00:30 and wake time 08:00 of any one day is constructed, with
    zero latency and 7.5 total sleep hours. *)
Theorem totalSleepHours_at_construction :
  (forall id date bedtime wakeTime quality c se c',
     NewSleepEntry id date bedtime wakeTime quality c = (Ok se, c') ->
     SleepEntry.sleepLatency se = 0 /\
     SleepEntry.totalSleepHours se
     = GoTime.Hours (rolled_over (GoTime.Sub wakeTime bedtime) - SleepEntry.sleepLatency se) /\
     (GoTime.minDuration <= GoTime.unixNano wakeTime - GoTime.unixNano bedtime
        <= GoTime.maxDuration ->
      GoTime.Sub wakeTime bedtime = GoTime.unixNano wakeTime - GoTime.unixNano bedtime)) /\
  (forall y m d loc id date quality c,
     exists se c',
       NewSleepEntry id date (GoTime.Date y m d 0 30 0 0 loc) (GoTime.Date y m d 8 0 0 0 loc)
         quality c = (Ok se, c') /\
       SleepEntry.sleepLatency se = 0 /\
       SleepEntry.totalSleepHours se = 7.5%float).
Proof.
  split.
  - intros id date bedtime wakeTime quality c se c' Hnew.
    apply NewSleepEntry_ok in Hnew as [_ ->].
    split; [reflexivity|]. split; [|apply GoTimeFacts.Sub_exact].
    exact (calculateTotalSleepHours_blank id date bedtime wakeTime quality).
  - intros y m d loc id date quality c.
    pose proof (Date_0030_0800 y m d loc) as Hgap.
    assert (Hsub : GoTime.Sub (GoTime.Date y m d 8 0 0 0 loc) (GoTime.Date y m d 0 30 0 0 loc)
                   = 27000000000000).
    { rewrite GoTimeFacts.Sub_exact; [lia|].
      unfold GoTime.minDuration, GoTime.maxDuration, GoInt.minInt64, GoInt.maxInt64. lia. }
    assert (Hacc : rejected (GoTime.Date y m d 0 30 0 0 loc) (GoTime.Date y m d 8 0 0 0 loc)
                   = false).
    { unfold rejected, GoTime.Before at 1.
      replace (_ <? _) with false; [reflexivity|]. symmetry. apply Z.ltb_ge. lia. }
    rewrite NewSleepEntry_cases, Hacc. cbv zeta.
    eexists _, _. split; [reflexivity|]. split; [reflexivity|].
    cbn [SleepEntry.totalSleepHours SleepEntry.addDomainEvent SleepEntry.set_domainEvents].
    rewrite calculateTotalSleepHours_blank, Hsub. exact Hours_7_5.
Qed.

(** The sleep row of the origin data: 00:30 to 08:00 on 2025-08-11. *)
Lemma totalSleepHours_at_construction_witness :
  exists se c',
    Samples.sleep0 Samples.clock0 = (Ok se, c') /\
    SleepEntry.sleepLatency se = 0 /\
    SleepEntry.totalSleepHours se
    = GoTime.Hours (rolled_over (GoTime.Sub Samples.wakeTime0 Samples.bedtime0)
                    - SleepEntry.sleepLatency se) /\
    SleepEntry.totalSleepHours se = 7.5%float.
Proof.
  eexists _, _. split; [vm_compute; reflexivity|].
  destruct (proj1 totalSleepHours_at_construction
              "sleep-1" Samples.day0 Samples.bedtime0 Samples.wakeTime0 6 Samples.clock0
              _ _ ltac:(vm_compute; reflexivity)) as (Hlat & Hhours & _).
  split; [exact Hlat|]. split; [exact Hhours|]. vm_compute. reflexivity.
Defined.

(** *** The validation of the wake time *)

(** C1, at an overnight sleep entered with both clock times on one date:
    to bed at 23:00, up at 07:00.  The wake time is before the bedtime, it is
    after the bedtime once 24 hours are added, and the constructor returns
    the error. *)
Theorem NewSleepEntry_rejects_overnight :
  GoTime.Clock Samples.bedtime1 = (23, 0, 0) /\
  GoTime.Clock Samples.wakeTime1 = (7, 0, 0) /\
  GoTime.Before Samples.wakeTime1 Samples.bedtime1 = true /\
  GoTime.Before (GoTime.Add Samples.wakeTime1 (24 * GoTime.Hour)) Samples.bedtime1 = false /\
  NewSleepEntry "sleep-1" Samples.day0 Samples.bedtime1 Samples.wakeTime1 6 Samples.clock0
  = (Err (NewDomainError "wake time cannot be before bedtime on the same day"),
     Samples.clock0).
Proof. repeat split; vm_compute; reflexivity. Qed.



(** *** Healthy sleep *)

(** C8.  [IsSleepHealthy()] is true if and only if the total sleep hours
    are in [7,9], the quality is at least 6 and there was at most one night
    awakening; it is false as soon as one of the three fails. *)
Theorem IsSleepHealthy_iff (se : SleepEntry.t) :
  (SleepEntry.IsSleepHealthy se = true <-> healthy_sleep se) /\
  (~ hours_in_7_9 se \/ ~ quality_at_least_6 se \/ ~ awakenings_at_most_1 se ->
   SleepEntry.IsSleepHealthy se = false).
Proof.
  assert (Hiff : SleepEntry.IsSleepHealthy se = true <-> healthy_sleep se).
  { unfold SleepEntry.IsSleepHealthy, healthy_sleep, hours_in_7_9, quality_at_least_6,
      awakenings_at_most_1.
    rewrite !andb_true_iff, Z.geb_le, Z.leb_le. tauto. }
  split; [exact Hiff|].
  intros Hfail. destruct (SleepEntry.IsSleepHealthy se) eqn:E; [|reflexivity].
  destruct (proj1 Hiff eq_refl) as (Hh & Hq & Ha). tauto.
Qed.

(** The 00:30 to 08:00 entry of quality 6 is healthy; with two night
    awakenings it is not. *)
Lemma IsSleepHealthy_iff_witness :
  exists se c',
    Samples.sleep0 Samples.clock0 = (Ok se, c') /\
    SleepEntry.IsSleepHealthy se = true /\
    SleepEntry.IsSleepHealthy (SleepEntry.set_nightAwakenings 2 se) = false.
Proof.
  eexists _, _. split; [vm_compute; reflexivity|]. split.
  - apply (proj2 (proj1 (IsSleepHealthy_iff _))).
    repeat split; vm_compute; first [reflexivity | intros H; discriminate H].
  - apply (proj2 (IsSleepHealthy_iff _)). right. right.
    vm_compute. intros H. apply H. reflexivity.
Defined.

(** *** Sleep latency *)

Lemma SetSleepLatency_error latency se c e se' c' :
  SleepEntry.SetSleepLatency latency se c = (Some e, se', c') ->
  se' = se /\ c' = c /\ IsDomainError e = true.
Proof.
  unfold SleepEntry.SetSleepLatency.
  destruct (latency <? 0); [|destruct (latency >? 2 * GoTime.Hour)]; run_io;
    [| |destruct (negb (SleepEntry.sleepLatency se =? latency))]; intros H;
    try discriminate; injection H as <- <- <-; repeat split.
Qed.

Lemma SetSleepLatency_accepted latency se c se' c' :
  SleepEntry.SetSleepLatency latency se c = (None, se', c') ->
  0 <= latency <= 2 * GoTime.Hour /\
  SleepEntry.sleepLatency se' = latency /\
  SleepEntry.totalSleepHours se' = SleepEntry.totalSleepHours se.
Proof.
  unfold SleepEntry.SetSleepLatency.
  destruct (latency <? 0) eqn:Hlo; [discriminate|].
  destruct (latency >? 2 * GoTime.Hour) eqn:Hhi; [discriminate|].
  apply Z.ltb_ge in Hlo. rewrite Z.gtb_ltb in Hhi. apply Z.ltb_ge in Hhi.
  destruct (negb (SleepEntry.sleepLatency se =? latency)); run_io; intros H;
    injection H as <- <-; repeat split; assumption.
Qed.

Lemma SetSleepLatency_totalSleepHours latency se c :
  SleepEntry.totalSleepHours (snd (fst (SleepEntry.SetSleepLatency latency se c)))
  = SleepEntry.totalSleepHours se.
Proof.
  unfold SleepEntry.SetSleepLatency.
  destruct (latency <? 0); [reflexivity|].
  destruct (latency >? 2 * GoTime.Hour); [reflexivity|].
  destruct (negb (SleepEntry.sleepLatency se =? latency)); reflexivity.
Qed.

(** No method writes [totalSleepHours]: only the constructor computes it. *)
Lemma sleep_call_totalSleepHours call se c :
  SleepEntry.totalSleepHours (fst (sleep_call call se c)) = SleepEntry.totalSleepHours se.
Proof.
  destruct call; cbn [sleep_call].
  - unfold bind, ret.
    pose proof (SetSleepLatency_totalSleepHours latency se c) as H.
    destruct (SleepEntry.SetSleepLatency latency se c) as [[r se1] c1]. exact H.
  - unfold SleepEntry.RecordNightAwakening. cbv zeta. run_io.
    match goal with |- context [if ?b then _ else _] => destruct b end; reflexivity.
  - unfold SleepEntry.SetDaytimeSleepiness. cbv zeta.
    match goal with |- context [if ?b then _ else _] => destruct b end; reflexivity.
  - unfold SleepEntry.UpdateSleepQuality. cbv zeta. run_io.
    match goal with |- context [if ?b then _ else _] => destruct b end; reflexivity.
  - reflexivity.
Qed.

Lemma sleep_calls_totalSleepHours calls se c :
  SleepEntry.totalSleepHours (fst (sleep_calls calls se c)) = SleepEntry.totalSleepHours se.
Proof.
  revert se c. induction calls as [|call calls IH]; intros se c.
  - reflexivity.
  - cbn [sleep_calls]. unfold bind.
    pose proof (sleep_call_totalSleepHours call se c) as H1.
    destruct (sleep_call call se c) as [se1 c1]. cbn [fst] in H1.
    now rewrite IH.
Qed.

(** C2.  [SetSleepLatency] never changes [totalSleepHours]; and on an entry
    that was constructed and then went through any series of calls, after a
    latency is accepted the field holds that latency while the total sleep
    hours are still the value computed at construction, from a zero
    latency. *)
Theorem SetSleepLatency_keeps_totalSleepHours :
  (forall latency se c,
     SleepEntry.totalSleepHours (snd (fst (SleepEntry.SetSleepLatency latency se c)))
     = SleepEntry.totalSleepHours se) /\
  (forall id date bedtime wakeTime quality c se0 c0,
     NewSleepEntry id date bedtime wakeTime quality c = (Ok se0, c0) ->
     forall calls c1 se c2 latency se' c3,
       sleep_calls calls se0 c1 = (se, c2) ->
       SleepEntry.SetSleepLatency latency se c2 = (None, se', c3) ->
       SleepEntry.sleepLatency se' = latency /\
       SleepEntry.totalSleepHours se' = SleepEntry.totalSleepHours se0 /\
       SleepEntry.totalSleepHours se'
       = GoTime.Hours (rolled_over (GoTime.Sub wakeTime bedtime) - 0)).
Proof.
  split; [exact SetSleepLatency_totalSleepHours|].
  intros id date bedtime wakeTime quality c se0 c0 Hnew calls c1 se c2 latency se' c3 Hrun Hset.
  apply SetSleepLatency_accepted in Hset as (_ & Hlat & Hkeep).
  pose proof (sleep_calls_totalSleepHours calls se0 c1) as Hcalls.
  rewrite Hrun in Hcalls. cbn [fst] in Hcalls.
  assert (H0 : SleepEntry.totalSleepHours se' = SleepEntry.totalSleepHours se0)
    by (now rewrite Hkeep, Hcalls).
  split; [exact Hlat|]. split; [exact H0|].
  rewrite H0. apply NewSleepEntry_ok in Hnew as [_ ->].
  exact (calculateTotalSleepHours_blank id date bedtime wakeTime quality).
Qed.

(** The 00:30 to 08:00 entry, after a night awakening, given the 30 minutes
    of latency of its row: the total stays 7.5 hours. *)
Lemma SetSleepLatency_keeps_totalSleepHours_witness :
  exists se0 c0 se c2 se' c3,
    Samples.sleep0 Samples.clock0 = (Ok se0, c0) /\
    sleep_calls [callRecordNightAwakening] se0 c0 = (se, c2) /\
    SleepEntry.SetSleepLatency (30 * GoTime.Minute) se c2 = (None, se', c3) /\
    (SleepEntry.sleepLatency se' = 30 * GoTime.Minute /\
     SleepEntry.totalSleepHours se' = SleepEntry.totalSleepHours se0 /\
     SleepEntry.totalSleepHours se'
     = GoTime.Hours (rolled_over (GoTime.Sub Samples.wakeTime0 Samples.bedtime0) - 0)) /\
    SleepEntry.totalSleepHours se' = 7.5%float.
Proof.
  eexists _, _, _, _, _, _.
  split; [vm_compute; reflexivity|].
  split; [vm_compute; reflexivity|].
  split; [vm_compute; reflexivity|].
  split; [|vm_compute; reflexivity].
  unshelve eapply (proj2 SetSleepLatency_keeps_totalSleepHours
                     "sleep-1" Samples.day0 Samples.bedtime0 Samples.wakeTime0 6
                     Samples.clock0 _ _ _ [callRecordNightAwakening]
                     (mkClock (readings Samples.clock0) 1%nat));
    try (vm_compute; reflexivity).
Defined.

(** *** Night awakenings *)

Lemma RecordNightAwakening_run se c :
  GoInt.in_int64 (SleepEntry.nightAwakenings se + 1) ->
  SleepEntry.RecordNightAwakening se c =
  let n := SleepEntry.nightAwakenings se + 1 in
  let se1 :=
    SleepEntry.addDomainEvent
      (NightAwakeningRecordedEvent (SleepEntry.id se) n (readings c (ticks c)))
      (SleepEntry.set_nightAwakenings n se) in
  if n >=? 3 then
    (SleepEntry.addDomainEvent
       (PoorSleepQualityDetectedEvent (SleepEntry.id se) "multiple night awakenings" n None
          (readings c (S (ticks c)))) se1,
     mkClock (readings c) (S (S (ticks c))))
  else (se1, mkClock (readings c) (S (ticks c))).
Proof.
  intros Hin. unfold SleepEntry.RecordNightAwakening, GoInt.add.
  rewrite (GoIntFacts.wrap64_small _ Hin). cbv zeta. run_io.
  cbn [SleepEntry.nightAwakenings SleepEntry.addDomainEvent SleepEntry.set_domainEvents
       SleepEntry.set_nightAwakenings SleepEntry.id].
  destruct (SleepEntry.nightAwakenings se + 1 >=? 3); reflexivity.
Qed.

Lemma appended_app (l x : list DomainEvent) : appended l (l ++ x) = x.
Proof.
  unfold appended. induction l as [|a l IH]; [reflexivity | exact IH].
Qed.

(** C7.  Three calls of [RecordNightAwakening] on a freshly created entry:
    the first and the second each append one [NightAwakeningRecorded] event,
    the third appends a [NightAwakeningRecorded] and a
    [PoorSleepQualityDetected] event; in all three events of the first kind
    and one of the second. *)
Theorem three_night_awakenings id date bedtime wakeTime quality c se0 c0 :
  NewSleepEntry id date bedtime wakeTime quality c = (Ok se0, c0) ->
  forall c1 c2 c3,
    let se1 := fst (SleepEntry.RecordNightAwakening se0 c1) in
    let se2 := fst (SleepEntry.RecordNightAwakening se1 c2) in
    let se3 := fst (SleepEntry.RecordNightAwakening se2 c3) in
    let added := appended (SleepEntry.domainEvents se0) (SleepEntry.domainEvents se3) in
    (exists t1 t2 t3 t4,
       SleepEntry.domainEvents se1
       = (SleepEntry.domainEvents se0 ++ [NightAwakeningRecordedEvent id 1 t1])%list /\
       SleepEntry.domainEvents se2
       = (SleepEntry.domainEvents se1 ++ [NightAwakeningRecordedEvent id 2 t2])%list /\
       SleepEntry.domainEvents se3
       = (SleepEntry.domainEvents se2
          ++ [NightAwakeningRecordedEvent id 3 t3;
              PoorSleepQualityDetectedEvent id "multiple night awakenings" 3 None t4])%list) /\
    map EventType added
    = ["NightAwakeningRecorded"; "NightAwakeningRecorded"; "NightAwakeningRecorded";
       "PoorSleepQualityDetected"] /\
    countType "NightAwakeningRecorded" added = 3%nat /\
    countType "PoorSleepQualityDetected" added = 1%nat /\
    countType "PoorSleepQualityDetected"
      (appended (SleepEntry.domainEvents se0) (SleepEntry.domainEvents se2)) = 0%nat.
Proof.
  intros Hnew c1 c2 c3. apply NewSleepEntry_ok in Hnew as [_ ->].
  assert (Hsmall : forall n, 0 <= n <= 2 -> GoInt.in_int64 (n + 1))
    by (intros n Hn; unfold GoInt.in_int64, GoInt.minInt64, GoInt.maxInt64; lia).
  cbv zeta.
  rewrite (RecordNightAwakening_run _ c1) by (apply Hsmall; cbn; lia).
  cbv zeta. cbn [fst SleepEntry.nightAwakenings SleepEntry.addDomainEvent
                 SleepEntry.set_domainEvents SleepEntry.set_nightAwakenings
                 SleepEntry.calculateTotalSleepHours SleepEntry.set_totalSleepHours blank
                 SleepEntry.id SleepEntry.domainEvents Z.add Z.geb Z.compare Pos.compare
                 Pos.compare_cont Pos.add Pos.succ].
  rewrite (RecordNightAwakening_run _ c2) by (apply Hsmall; cbn; lia).
  cbv zeta. cbn [fst SleepEntry.nightAwakenings SleepEntry.addDomainEvent
                 SleepEntry.set_domainEvents SleepEntry.set_nightAwakenings
                 SleepEntry.id SleepEntry.domainEvents Z.add Z.geb Z.compare Pos.compare
                 Pos.compare_cont Pos.add Pos.succ].
  rewrite (RecordNightAwakening_run _ c3) by (apply Hsmall; cbn; lia).
  cbv zeta. cbn [fst SleepEntry.nightAwakenings SleepEntry.addDomainEvent
                 SleepEntry.set_domainEvents SleepEntry.set_nightAwakenings
                 SleepEntry.id SleepEntry.domainEvents Z.add Z.geb Z.compare Pos.compare
                 Pos.compare_cont Pos.add Pos.succ app].
  split; [eexists _, _, _, _; repeat split|].
  repeat split.
Qed.

(** The 00:30 to 08:00 entry, woken three times. *)
Lemma three_night_awakenings_witness :
  exists se0 c0,
    Samples.sleep0 Samples.clock0 = (Ok se0, c0) /\
    let se1 := fst (SleepEntry.RecordNightAwakening se0 c0) in
    let se2 := fst (SleepEntry.RecordNightAwakening se1 c0) in
    let se3 := fst (SleepEntry.RecordNightAwakening se2 c0) in
    let added := appended (SleepEntry.domainEvents se0) (SleepEntry.domainEvents se3) in
    map EventType added
    = ["NightAwakeningRecorded"; "NightAwakeningRecorded"; "NightAwakeningRecorded";
       "PoorSleepQualityDetected"] /\
    countType "NightAwakeningRecorded" added = 3%nat /\
    countType "PoorSleepQualityDetected" added = 1%nat /\
    countType "PoorSleepQualityDetected"
      (appended (SleepEntry.domainEvents se0) (SleepEntry.domainEvents se2)) = 0%nat.
Proof.
  eexists _, _. split; [vm_compute; reflexivity|].
  unshelve eapply (proj2 (three_night_awakenings
                            "sleep-1" Samples.day0 Samples.bedtime0 Samples.wakeTime0 6
                            Samples.clock0 _ _ _ _ _ _));
    try (vm_compute; reflexivity).
Defined.

End SleepFacts.

(** ** Failed calls *)

Module MutatorFacts.

Import errors valueobjects entities Calls Spec.
Local Open Scope string_scope.
Local Open Scope Z_scope.

(** C4.  When [StartTask], [UpdateDuration] or [SetSleepLatency] returns an
    error, the entity it was called on is exactly as it was before the call,
    every field and the event buffer; the clock was not read either. *)
Theorem failed_call_leaves_entity :
  (forall te c e te' c',
     TaskEntry.StartTask te c = (Some e, te', c') -> te' = te /\ c' = c) /\
  (forall duration te c e te' c',
     TaskEntry.UpdateDuration duration te c = (Some e, te', c') -> te' = te /\ c' = c) /\
  (forall latency se c e se' c',
     SleepEntry.SetSleepLatency latency se c = (Some e, se', c') -> se' = se /\ c' = c).
Proof.
  split; [|split].
  - intros te c e te' c' H. apply TaskFacts.StartTask_error in H. tauto.
  - intros duration te c e te' c' H. apply TaskFacts.UpdateDuration_error in H. tauto.
  - intros latency se c e se' c' H. apply SleepFacts.SetSleepLatency_error in H. tauto.
Qed.

(** A latency of three hours on the 00:30 to 08:00 entry, and a negative
    duration on the started test entry. *)
Lemma failed_call_leaves_entity_witness :
  exists se0 c0 te0 te1 c1,
    Samples.sleep0 Samples.clock0 = (Ok se0, c0) /\
    Samples.task0 = Ok te0 /\
    TaskEntry.StartTask te0 c0 = (None, te1, c1) /\
    (exists e se' c',
       SleepEntry.SetSleepLatency (3 * GoTime.Hour) se0 c0 = (Some e, se', c') /\
       se' = se0 /\ c' = c0) /\
    (exists e te' c',
       TaskEntry.UpdateDuration (-10 * GoTime.Minute) te1 c1 = (Some e, te', c') /\
       te' = te1 /\ c' = c1) /\
    (exists e te' c',
       TaskEntry.StartTask te1 c1 = (Some e, te', c') /\ te' = te1 /\ c' = c1).
Proof.
  eexists _, _, _, _, _.
  split; [vm_compute; reflexivity|].
  split; [vm_compute; reflexivity|].
  split; [vm_compute; reflexivity|].
  split; [|split]; eexists _, _, _.
  - split; [vm_compute; reflexivity|].
    eapply (proj2 (proj2 failed_call_leaves_entity) (3 * GoTime.Hour)).
    vm_compute. reflexivity.
  - split; [vm_compute; reflexivity|].
    eapply (proj1 (proj2 failed_call_leaves_entity) (-10 * GoTime.Minute)).
    vm_compute. reflexivity.
  - split; [vm_compute; reflexivity|].
    eapply (proj1 failed_call_leaves_entity).
    vm_compute. reflexivity.
Defined.

End MutatorFacts.

(** ** [TaskEntry]: construction, invariants and traces *)

Module TaskTraceFacts.

Import errors valueobjects entities Calls Spec Traces.
Local Open Scope string_scope.
Local Open Scope Z_scope.

(** A property every call keeps holds after any series of calls. *)
Lemma task_calls_keep (P : TaskEntry.t -> Prop) :
  (forall call te c, P te -> P (fst (task_call call te c))) ->
  forall calls te c, P te -> P (fst (task_calls calls te c)).
Proof.
  intros Hstep calls. induction calls as [|call calls IH]; intros te c HP.
  - exact HP.
  - cbn [task_calls]. unfold bind.
    pose proof (Hstep call te c HP) as H1.
    destruct (task_call call te c) as [te1 c1]. apply IH. exact H1.
Qed.

Lemma task_call_constants call te c :
  task_constants (fst (task_call call te c)) = task_constants te.
Proof.
  destruct call; cbn [task_call]; run_io; try reflexivity.
  - unfold TaskEntry.StartTask. destruct (TaskEntry.started te); reflexivity.
  - unfold TaskEntry.UpdateDuration.
    destruct (negb (TaskEntry.started te)); [reflexivity|].
    destruct (duration <? 0); reflexivity.
Qed.

Lemma task_call_invariant call te c :
  task_invariant te -> task_invariant (fst (task_call call te c)).
Proof.
  unfold task_invariant. intros (Hst & Hpos & Hdur).
  destruct call; cbn [task_call].
  - unfold TaskEntry.StartTask. destruct (TaskEntry.started te) eqn:Es; run_io.
    + rewrite Es. tauto.
    + cbn [TaskEntry.started TaskEntry.startTime TaskEntry.activeDuration
           TaskEntry.addDomainEvent TaskEntry.set_domainEvents TaskEntry.set_startTime
           TaskEntry.set_started].
      repeat split; try tauto; intros; discriminate.
  - unfold TaskEntry.UpdateDuration. destruct (TaskEntry.started te) eqn:Es; cbn [negb].
    + destruct (duration <? 0) eqn:Ed; run_io.
      * rewrite Es. tauto.
      * apply Z.ltb_ge in Ed.
        cbn [TaskEntry.started TaskEntry.startTime TaskEntry.activeDuration
             TaskEntry.set_activeDuration].
        rewrite Es. repeat split; tauto.
    + run_io. rewrite Es. tauto.
  - unfold TaskEntry.SetStressAfter. run_io. tauto.
  - run_io. tauto.
  - run_io. tauto.
Qed.

(** X2.  What [NewTaskEntry] accepts: it fails exactly on an empty key task
    or a day number below 1, reporting the empty key task first; what it
    returns otherwise holds the six arguments, is not started, and has zero
    values and an empty event buffer elsewhere. *)
Theorem NewTaskEntry_validation id date dayNumber keyTask category stressBefore :
  (keyTask = "" ->
   NewTaskEntry id date dayNumber keyTask category stressBefore
   = Err (NewDomainError "key task cannot be empty")) /\
  (keyTask <> "" -> dayNumber < 1 ->
   NewTaskEntry id date dayNumber keyTask category stressBefore
   = Err (NewDomainError "day number must be positive")) /\
  (keyTask <> "" -> 1 <= dayNumber ->
   exists te,
     NewTaskEntry id date dayNumber keyTask category stressBefore = Ok te /\
     task_constants te
     = (id, date, dayNumber, keyTask, category, stressBefore, (false, 0, 0, 0, 0, 0, 0)) /\
     TaskEntry.started te = false /\ TaskEntry.startTime te = None /\
     TaskEntry.activeDuration te = 0 /\ TaskEntry.stressAfter te = 0 /\
     TaskEntry.notes te = "" /\ TaskEntry.domainEvents te = []).
Proof.
  unfold NewTaskEntry. split; [|split].
  - intros ->. reflexivity.
  - intros Hk Hd. apply String.eqb_neq in Hk. rewrite Hk.
    apply Z.ltb_lt in Hd. now rewrite Hd.
  - intros Hk Hd. apply String.eqb_neq in Hk. rewrite Hk.
    apply Z.ltb_ge in Hd. rewrite Hd. eexists. repeat split.
Qed.

(** A key task and a day number that are both invalid, and a valid pair. *)
Lemma NewTaskEntry_validation_witness :
  NewTaskEntry "t" Samples.day0 (-1) "" TaskCategoryWork 7
  = Err (NewDomainError "key task cannot be empty") /\
  NewTaskEntry "t" Samples.day0 0 "Test task" TaskCategoryWork 7
  = Err (NewDomainError "day number must be positive") /\
  exists te, Samples.task0 = Ok te /\ TaskEntry.domainEvents te = [].
Proof.
  split; [|split].
  - apply (proj1 (NewTaskEntry_validation "t" Samples.day0 (-1) "" TaskCategoryWork 7)).
    reflexivity.
  - apply (proj1 (proj2 (NewTaskEntry_validation
                           "t" Samples.day0 0 "Test task" TaskCategoryWork 7))).
    + discriminate.
    + lia.
  - destruct (proj2 (proj2 (NewTaskEntry_validation
                              "test-id-123" Samples.day0 1 "Test task" TaskCategoryWork 7)))
      as (te & Hnew & _ & _ & _ & _ & _ & _ & Hev).
    + discriminate.
    + lia.
    + exists te. split; [exact Hnew | exact Hev].
Defined.

(** X3.  Whatever is called on a constructed [TaskEntry], and in whatever
    order: the identity, date, day number, key task, category and stress
    before are those given to the constructor; the fields that have a getter
    and no setter (continued-after, distractions, blocks, pomodoros, light
    exposure, energy, mood) stay at their zero values; the entry has a start
    time exactly when it is started; and the active duration is never
    negative, and is zero on an entry that was not started. *)
Theorem TaskEntry_invariants id date dayNumber keyTask category stressBefore te0 :
  NewTaskEntry id date dayNumber keyTask category stressBefore = Ok te0 ->
  forall calls c,
    let te := fst (task_calls calls te0 c) in
    task_constants te
    = (id, date, dayNumber, keyTask, category, stressBefore, (false, 0, 0, 0, 0, 0, 0)) /\
    TaskEntry.keyTask te <> "" /\ 1 <= TaskEntry.dayNumber te /\
    task_invariant te.
Proof.
  intros Hnew calls c. apply TaskFacts.NewTaskEntry_ok in Hnew as (Hk & Hd & ->).
  cbv zeta.
  set (te0 := TaskEntry.mk id date dayNumber keyTask category stressBefore
                false None 0 false 0 0 0 0 0 0 0 "" []).
  assert (Hc : task_constants (fst (task_calls calls te0 c)) = task_constants te0).
  { apply (task_calls_keep (fun te => task_constants te = task_constants te0));
      [|reflexivity].
    intros call te c' H. now rewrite task_call_constants. }
  assert (Hi : task_invariant (fst (task_calls calls te0 c))).
  { apply task_calls_keep; [exact task_call_invariant|].
    unfold task_invariant, te0. cbn. repeat split; try lia; try discriminate.
    intros H. now contradiction H. }
  split; [exact Hc|].
  unfold task_constants in Hc. injection Hc as _ _ Hdn Hkt _ _ _ _ _ _ _ _ _.
  rewrite Hdn, Hkt. unfold te0. cbn [TaskEntry.keyTask TaskEntry.dayNumber].
  split; [exact Hk|]. split; [exact Hd | exact Hi].
Qed.

(** The test entry: a duration refused, a start, a duration, a second
    start, a stress level. *)
Lemma TaskEntry_invariants_witness :
  exists te0 te,
    Samples.task0 = Ok te0 /\
    te = fst (task_calls [callUpdateDuration 5; callStartTask; callUpdateDuration 9;
                          callStartTask; callSetStressAfter 3] te0 Samples.clock0) /\
    TaskEntry.keyTask te = "Test task" /\ TaskEntry.mood te = 0 /\
    TaskEntry.activeDuration te = 9 /\ task_invariant te.
Proof.
  eexists _, _. split; [reflexivity|]. split; [reflexivity|].
  split; [reflexivity|]. split; [reflexivity|]. split; [reflexivity|].
  apply (TaskEntry_invariants "test-id-123" Samples.day0 1 "Test task" TaskCategoryWork 7 _
           eq_refl
           [callUpdateDuration 5; callStartTask; callUpdateDuration 9;
            callStartTask; callSetStressAfter 3] Samples.clock0).
Defined.

(** *** [UpdateDuration] and [StartTask] *)

Lemma task_call_started_or call te c :
  TaskEntry.started (fst (task_call call te c))
  = TaskEntry.started te || is_StartTask call.
Proof.
  destruct call; cbn [task_call is_StartTask].
  - unfold TaskEntry.StartTask. destruct (TaskEntry.started te) eqn:Es; run_io.
    + now rewrite Es.
    + reflexivity.
  - unfold TaskEntry.UpdateDuration. destruct (TaskEntry.started te) eqn:Es; cbn [negb].
    + destruct (duration <? 0); run_io;
        cbn [TaskEntry.started TaskEntry.set_activeDuration]; now rewrite Es.
    + run_io. now rewrite Es.
  - unfold TaskEntry.SetStressAfter. run_io. now rewrite orb_false_r.
  - run_io. now rewrite orb_false_r.
  - run_io. now rewrite orb_false_r.
Qed.

Lemma task_calls_started_or calls te c :
  TaskEntry.started (fst (task_calls calls te c))
  = TaskEntry.started te || existsb is_StartTask calls.
Proof.
  revert te c. induction calls as [|call calls IH]; intros te c.
  - cbn. now rewrite orb_false_r.
  - cbn [task_calls existsb]. unfold bind.
    pose proof (task_call_started_or call te c) as H1.
    destruct (task_call call te c) as [te1 c1]. cbn [fst] in H1.
    rewrite IH, H1. now rewrite orb_assoc.
Qed.

(** X4.  After any series of calls on a constructed [TaskEntry],
    [UpdateDuration(d)] succeeds exactly when the series holds a [StartTask]
    and [d] is not negative.  When it succeeds the active duration is [d], no
    event is recorded and the clock is not read; when it fails the entry is
    as it was. *)
Theorem UpdateDuration_after_calls id date dayNumber keyTask category stressBefore te0 :
  NewTaskEntry id date dayNumber keyTask category stressBefore = Ok te0 ->
  forall calls c d,
    let te := fst (task_calls calls te0 c) in
    let c1 := snd (task_calls calls te0 c) in
    (existsb is_StartTask calls = true /\ 0 <= d ->
     exists te',
       TaskEntry.UpdateDuration d te c1 = (None, te', c1) /\
       TaskEntry.activeDuration te' = d /\
       TaskEntry.domainEvents te' = TaskEntry.domainEvents te /\
       task_constants te' = task_constants te) /\
    (~ (existsb is_StartTask calls = true /\ 0 <= d) ->
     exists e, TaskEntry.UpdateDuration d te c1 = (Some e, te, c1)).
Proof.
  intros Hnew calls c d. apply TaskFacts.NewTaskEntry_ok in Hnew as (_ & _ & ->).
  cbv zeta.
  match goal with |- context [task_calls calls ?t c] =>
    pose proof (task_calls_started_or calls t c) as Hs;
    destruct (task_calls calls t c) as [te c1] end.
  cbn [fst snd TaskEntry.started orb] in *.
  unfold TaskEntry.UpdateDuration. rewrite Hs. split.
  - intros [Hstart Hd]. rewrite Hstart. cbn [negb].
    apply Z.ltb_ge in Hd. rewrite Hd. eexists. repeat split.
  - intros Hno. destruct (existsb is_StartTask calls); cbn [negb].
    + destruct (d <? 0) eqn:Hd; [eexists; reflexivity|].
      apply Z.ltb_ge in Hd. exfalso. apply Hno. split; [reflexivity | exact Hd].
    + eexists. reflexivity.
Qed.

(** The test [TestTaskEntry_UpdateDuration]: refused before the start,
    accepted after it. *)
Lemma UpdateDuration_after_calls_witness :
  exists te0,
    Samples.task0 = Ok te0 /\
    (exists e, TaskEntry.UpdateDuration (30 * GoTime.Minute) te0 Samples.clock0
               = (Some e, te0, Samples.clock0)) /\
    (let r := task_calls [callStartTask] te0 Samples.clock0 in
     exists te',
       TaskEntry.UpdateDuration (25 * GoTime.Minute) (fst r) (snd r) = (None, te', snd r) /\
       TaskEntry.activeDuration te' = 25 * GoTime.Minute).
Proof.
  eexists. split; [reflexivity|]. split.
  - apply (proj2 (UpdateDuration_after_calls
                    "test-id-123" Samples.day0 1 "Test task" TaskCategoryWork 7 _ eq_refl
                    [] Samples.clock0 (30 * GoTime.Minute))).
    intros [H _]. discriminate H.
  - destruct (proj1 (UpdateDuration_after_calls
                       "test-id-123" Samples.day0 1 "Test task" TaskCategoryWork 7 _ eq_refl
                       [callStartTask] Samples.clock0 (25 * GoTime.Minute)))
      as (te' & Hupd & Hdur & _).
    + split; [reflexivity | vm_compute; discriminate].
    + exists te'. split; [exact Hupd | exact Hdur].
Defined.

(** *** Stress after the task *)

Lemma NewStressLevel_ok (n : Z) (sl : StressLevel) :
  NewStressLevel n = Ok sl -> sl = n /\ 0 <= n <= 10.
Proof.
  unfold NewStressLevel, StressLevelMin, StressLevelMax. intros H.
  destruct (n <? 0) eqn:Hlo; [discriminate|].
  destruct (n >? 10) eqn:Hhi; [discriminate|].
  apply Z.ltb_ge in Hlo. rewrite Z.gtb_ltb in Hhi. apply Z.ltb_ge in Hhi.
  injection H as <-. lia.
Qed.

(** X5.  [SetStressAfter] with a level made by [NewStressLevel], on an entry
    whose stress before was made by it too: the level is stored, one
    [StressLevelChanged] event carrying both levels is recorded, also when
    the level is the one already stored, and [CalculateStressReduction] is
    the difference of the two levels, between -10 and 10. *)
Theorem SetStressAfter_reduction te c nb na a :
  NewStressLevel nb = Ok (TaskEntry.stressBefore te) ->
  NewStressLevel na = Ok a ->
  let te' := fst (TaskEntry.SetStressAfter a te c) in
  TaskEntry.StressAfter te' = a /\
  TaskEntry.CalculateStressReduction te' = TaskEntry.stressBefore te - a /\
  -10 <= TaskEntry.CalculateStressReduction te' <= 10 /\
  TaskEntry.domainEvents te'
  = (TaskEntry.domainEvents te
     ++ [StressLevelChangedEvent (TaskEntry.id te) (TaskEntry.stressBefore te) a
           (readings c (ticks c))])%list.
Proof.
  intros Hb Ha. apply NewStressLevel_ok in Hb as [Hsb Hb].
  apply NewStressLevel_ok in Ha as [-> Ha].
  cbv zeta. unfold TaskEntry.SetStressAfter. run_io.
  unfold TaskEntry.StressAfter, TaskEntry.CalculateStressReduction.
  cbn [TaskEntry.stressAfter TaskEntry.stressBefore TaskEntry.addDomainEvent
       TaskEntry.set_domainEvents TaskEntry.set_stressAfter TaskEntry.domainEvents
       TaskEntry.id].
  assert (Hsub : GoInt.sub (TaskEntry.stressBefore te) na = TaskEntry.stressBefore te - na).
  { apply GoIntFacts.wrap64_small.
    unfold GoInt.in_int64, GoInt.minInt64, GoInt.maxInt64. lia. }
  rewrite Hsub. split; [reflexivity|]. split; [reflexivity|]. split; [lia | reflexivity].
Qed.

(** [TestTaskEntry_CalculateStressReduction]: 7 before, 3 after. *)
Lemma SetStressAfter_reduction_witness :
  exists te,
    Samples.task0 = Ok te /\
    TaskEntry.CalculateStressReduction (fst (TaskEntry.SetStressAfter 3 te Samples.clock0))
    = 7 - 3.
Proof.
  eexists. split; [reflexivity|].
  refine (proj1 (proj2 (SetStressAfter_reduction _ Samples.clock0 7 3 3 _ _)));
    reflexivity.
Defined.

End TaskTraceFacts.

(** ** The event buffer and the clock *)

Module BufferFacts.

Import errors valueobjects entities Calls Spec Traces.
Local Open Scope string_scope.
Local Open Scope Z_scope.

Lemma recorded_none (evs : list DomainEvent) (c : Clock) : recorded evs evs c c.
Proof.
  exists []. rewrite app_nil_r, Nat.add_0_r. repeat split.
Qed.

Lemma recorded_one (evs : list DomainEvent) (c : Clock) (e : DomainEvent) :
  OccurredOn e = readings c (ticks c) ->
  recorded evs (evs ++ [e]) c (mkClock (readings c) (S (ticks c))).
Proof.
  intros He. exists [e]. cbn [List.length map seq readings ticks].
  rewrite He, Nat.add_1_r. repeat split.
Qed.

Lemma recorded_two (evs : list DomainEvent) (c : Clock) (e1 e2 : DomainEvent) :
  OccurredOn e1 = readings c (ticks c) ->
  OccurredOn e2 = readings c (S (ticks c)) ->
  recorded evs ((evs ++ [e1]) ++ [e2]) c (mkClock (readings c) (S (S (ticks c)))).
Proof.
  intros H1 H2. exists [e1; e2]. cbn [List.length map seq readings ticks].
  rewrite H1, H2, <- app_assoc. repeat split. lia.
Qed.

Lemma recorded_trans (a b d : list DomainEvent) (c1 c2 c3 : Clock) :
  recorded a b c1 c2 -> recorded b d c2 c3 -> recorded a d c1 c3.
Proof.
  intros (n1 & -> & Hr1 & Ht1 & Hs1) (n2 & -> & Hr2 & Ht2 & Hs2).
  exists (n1 ++ n2)%list. rewrite app_assoc, length_app, map_app, seq_app, map_app.
  rewrite Hs1, Hs2, Hr2, Hr1, Ht2, Ht1. repeat split. lia.
Qed.

Lemma recorded_length (a b : list DomainEvent) (c c' : Clock) :
  recorded a b c c' ->
  List.length b = (List.length a + (ticks c' - ticks c))%nat.
Proof.
  intros (new & -> & _ & Ht & _). rewrite length_app. lia.
Qed.

(** *** [TaskEntry] *)

Lemma task_call_recorded call te c :
  clears_task call = false ->
  recorded (TaskEntry.domainEvents te) (TaskEntry.domainEvents (fst (task_call call te c)))
    c (snd (task_call call te c)) /\
  (ticks (snd (task_call call te c)) <= S (ticks c))%nat.
Proof.
  intros Hclear. destruct call; try discriminate; cbn [task_call].
  - unfold TaskEntry.StartTask. destruct (TaskEntry.started te); run_io.
    + split; [apply recorded_none | lia].
    + split; [now apply recorded_one | cbn; lia].
  - unfold TaskEntry.UpdateDuration. destruct (negb (TaskEntry.started te));
      [|destruct (duration <? 0)]; run_io; (split; [apply recorded_none | lia]).
  - unfold TaskEntry.SetStressAfter. run_io. split; [now apply recorded_one | cbn; lia].
  - run_io. split; [apply recorded_none | lia].
Qed.

Lemma task_calls_recorded calls te c :
  forallb (fun call => negb (clears_task call)) calls = true ->
  recorded (TaskEntry.domainEvents te) (TaskEntry.domainEvents (fst (task_calls calls te c)))
    c (snd (task_calls calls te c)) /\
  (ticks (snd (task_calls calls te c)) <= ticks c + List.length calls)%nat.
Proof.
  revert te c. induction calls as [|call calls IH]; intros te c Hno.
  - cbn. split; [apply recorded_none | lia].
  - cbn [forallb] in Hno. apply andb_true_iff in Hno as [Hcall Hrest].
    apply negb_true_iff in Hcall.
    cbn [task_calls List.length]. unfold bind.
    destruct (task_call_recorded call te c Hcall) as [H1 H1'].
    destruct (task_call call te c) as [te1 c1]. cbn [fst snd] in *.
    destruct (IH te1 c1 Hrest) as [H2 H2'].
    split; [exact (recorded_trans _ _ _ _ _ _ H1 H2) | lia].
Qed.

(** X6.  A series of calls on a [TaskEntry] that holds no
    [ClearDomainEvents] only appends to the event buffer: the events that
    were there stay, in place; at most one event is appended per call; one
    event is appended for each reading of the clock, and its [OccurredOn] is
    that reading, so the buffer is in the order of the readings.
    [ClearDomainEvents] empties the buffer and changes no other field. *)
Theorem TaskEntry_buffer_grows calls te c :
  forallb (fun call => negb (clears_task call)) calls = true ->
  let te' := fst (task_calls calls te c) in
  let c' := snd (task_calls calls te c) in
  recorded (TaskEntry.domainEvents te) (TaskEntry.domainEvents te') c c' /\
  (List.length (TaskEntry.domainEvents te')
   <= List.length (TaskEntry.domainEvents te) + List.length calls)%nat /\
  TaskEntry.domainEvents (TaskEntry.ClearDomainEvents te') = [] /\
  TaskEntry.set_domainEvents (TaskEntry.domainEvents te') (TaskEntry.ClearDomainEvents te')
  = te'.
Proof.
  intros Hno. cbv zeta. destruct (task_calls_recorded calls te c Hno) as [Hrec Hticks].
  split; [exact Hrec|]. split.
  - rewrite (recorded_length _ _ _ _ Hrec). lia.
  - split; [reflexivity|]. now destruct (fst (task_calls calls te c)).
Qed.

(** The test entry, started, started again, given a stress level. *)
Lemma TaskEntry_buffer_grows_witness :
  exists te,
    Samples.task0 = Ok te /\
    let r := task_calls [callStartTask; callStartTask; callSetStressAfter 3] te Samples.clock0 in
    map EventType (TaskEntry.domainEvents (fst r)) = ["TaskStarted"; "StressLevelChanged"] /\
    recorded (TaskEntry.domainEvents te) (TaskEntry.domainEvents (fst r))
      Samples.clock0 (snd r).
Proof.
  eexists. split; [reflexivity|]. split; [reflexivity|].
  apply (TaskEntry_buffer_grows [callStartTask; callStartTask; callSetStressAfter 3]
           _ Samples.clock0 eq_refl).
Defined.

(** *** [SleepEntry] *)

Lemma sleep_call_recorded call se c :
  clears_sleep call = false ->
  recorded (SleepEntry.domainEvents se)
    (SleepEntry.domainEvents (fst (sleep_call call se c))) c (snd (sleep_call call se c)) /\
  (ticks (snd (sleep_call call se c)) <= 2 + ticks c)%nat.
Proof.
  intros Hclear. destruct call; try discriminate; cbn [sleep_call].
  - unfold SleepEntry.SetSleepLatency.
    destruct (latency <? 0); [|destruct (latency >? 2 * GoTime.Hour);
      [|destruct (negb (SleepEntry.sleepLatency se =? latency))]]; run_io;
      first [split; [apply recorded_none | lia]
            | split; [now apply recorded_one | cbn; lia]].
  - unfold SleepEntry.RecordNightAwakening. cbv zeta. run_io.
    match goal with |- context [if ?b then _ else _] => destruct b end; cbn [fst snd].
    + split; [now apply recorded_two | cbn; lia].
    + split; [now apply recorded_one | cbn; lia].
  - unfold SleepEntry.SetDaytimeSleepiness. cbv zeta.
    match goal with |- context [if ?b then _ else _] => destruct b end; run_io.
    + split; [now apply recorded_one | cbn; lia].
    + split; [apply recorded_none | lia].
  - unfold SleepEntry.UpdateSleepQuality. cbv zeta. run_io.
    match goal with |- context [if ?b then _ else _] => destruct b end; cbn [fst snd].
    + split; [now apply recorded_two | cbn; lia].
    + split; [now apply recorded_one | cbn; lia].
Qed.

Lemma sleep_calls_recorded calls se c :
  forallb (fun call => negb (clears_sleep call)) calls = true ->
  recorded (SleepEntry.domainEvents se)
    (SleepEntry.domainEvents (fst (sleep_calls calls se c))) c (snd (sleep_calls calls se c)) /\
  (ticks (snd (sleep_calls calls se c)) <= ticks c + 2 * List.length calls)%nat.
Proof.
  revert se c. induction calls as [|call calls IH]; intros se c Hno.
  - cbn. split; [apply recorded_none | lia].
  - cbn [forallb] in Hno. apply andb_true_iff in Hno as [Hcall Hrest].
    apply negb_true_iff in Hcall.
    cbn [sleep_calls List.length]. unfold bind.
    destruct (sleep_call_recorded call se c Hcall) as [H1 H1'].
    destruct (sleep_call call se c) as [se1 c1]. cbn [fst snd] in *.
    destruct (IH se1 c1 Hrest) as [H2 H2'].
    split; [exact (recorded_trans _ _ _ _ _ _ H1 H2) | lia].
Qed.

(** X7.  The same for a [SleepEntry], from its construction on: the
    constructor records one [SleepEntryCreated] event, stamped with the one
    reading it takes; a series of calls that holds no [ClearDomainEvents]
    only appends to the buffer, at most two events per call, one per reading
    of the clock and stamped with it.  [ClearDomainEvents] empties the buffer
    and changes no other field. *)
Theorem SleepEntry_buffer_grows id date bedtime wakeTime quality c0 se0 c calls :
  NewSleepEntry id date bedtime wakeTime quality c0 = (Ok se0, c) ->
  forallb (fun call => negb (clears_sleep call)) calls = true ->
  let se' := fst (sleep_calls calls se0 c) in
  let c' := snd (sleep_calls calls se0 c) in
  map EventType (SleepEntry.domainEvents se0) = ["SleepEntryCreated"] /\
  recorded [] (SleepEntry.domainEvents se0) c0 c /\
  recorded (SleepEntry.domainEvents se0) (SleepEntry.domainEvents se') c c' /\
  (List.length (SleepEntry.domainEvents se') <= 1 + 2 * List.length calls)%nat /\
  SleepEntry.domainEvents (SleepEntry.ClearDomainEvents se') = [] /\
  SleepEntry.set_domainEvents (SleepEntry.domainEvents se') (SleepEntry.ClearDomainEvents se')
  = se'.
Proof.
  intros Hnew Hno. cbv zeta.
  rewrite SleepFacts.NewSleepEntry_cases in Hnew.
  destruct (Views.rejected bedtime wakeTime); [discriminate|].
  cbv zeta in Hnew.
  match type of Hnew with
  | (Ok ?s, ?k) = _ => remember s as sb eqn:Hsb; remember k as cb eqn:Hcb
  end.
  injection Hnew as <- <-.
  destruct (sleep_calls_recorded calls sb cb Hno) as [Hrec Hticks].
  split; [rewrite Hsb; reflexivity|]. split; [|split; [exact Hrec|split]].
  - rewrite Hsb, Hcb. apply (recorded_one [] c0). reflexivity.
  - assert (Hl0 : List.length (SleepEntry.domainEvents sb) = 1%nat)
      by (rewrite Hsb; reflexivity).
    rewrite (recorded_length _ _ _ _ Hrec), Hl0. lia.
  - split; [reflexivity|].
    match goal with |- context [fst ?r] => now destruct (fst r) end.
Qed.

(** The 00:30 to 08:00 entry, woken three times, then given a latency. *)
Lemma SleepEntry_buffer_grows_witness :
  exists se0 c,
    Samples.sleep0 Samples.clock0 = (Ok se0, c) /\
    let r := sleep_calls [callRecordNightAwakening; callRecordNightAwakening;
                          callRecordNightAwakening; callSetSleepLatency GoTime.Hour] se0 c in
    List.length (SleepEntry.domainEvents (fst r)) = 6%nat /\
    recorded (SleepEntry.domainEvents se0) (SleepEntry.domainEvents (fst r)) c (snd r).
Proof.
  eexists _, _. split; [vm_compute; reflexivity|]. split; [vm_compute; reflexivity|].
  unshelve eapply (proj1 (proj2 (proj2 (SleepEntry_buffer_grows
                     "sleep-1" Samples.day0 Samples.bedtime0 Samples.wakeTime0 6
                     Samples.clock0 _ _
                     [callRecordNightAwakening; callRecordNightAwakening;
                      callRecordNightAwakening; callSetSleepLatency GoTime.Hour] _ _))));
    try (vm_compute; reflexivity).
Defined.

End BufferFacts.

(** ** [SleepEntry]: construction, invariants and traces *)

Module SleepTraceFacts.

Import errors valueobjects entities Calls Spec Traces.
Local Open Scope string_scope.
Local Open Scope Z_scope.





(** *** Invariants *)

Lemma sleep_calls_keep (P : SleepEntry.t -> Prop) :
  (forall call se c, P se -> P (fst (sleep_call call se c))) ->
  forall calls se c, P se -> P (fst (sleep_calls calls se c)).
Proof.
  intros Hstep calls. induction calls as [|call calls IH]; intros se c HP.
  - exact HP.
  - cbn [sleep_calls]. unfold bind.
    pose proof (Hstep call se c HP) as H1.
    destruct (sleep_call call se c) as [se1 c1]. apply IH. exact H1.
Qed.

(** Each call, by cases on the tests it makes. *)
Ltac sleep_call_cases call se :=
  destruct call; cbn [sleep_call];
  [ unfold SleepEntry.SetSleepLatency;
    match goal with |- context [?l <? 0] => destruct (l <? 0) eqn:Hlo end;
    [|match goal with |- context [?l >? ?h] => destruct (l >? h) eqn:Hhi end;
      [|destruct (negb (SleepEntry.sleepLatency se =? _))]]
  | unfold SleepEntry.RecordNightAwakening; cbv zeta; run_io;
    match goal with |- context [if ?b then _ else _] => destruct b eqn:Hmany end
  | unfold SleepEntry.SetDaytimeSleepiness; cbv zeta;
    match goal with |- context [if ?b then _ else _] => destruct b eqn:Hfar end
  | unfold SleepEntry.UpdateSleepQuality; cbv zeta; run_io;
    match goal with |- context [if ?b then _ else _] => destruct b eqn:Hpoor end
  | ];
  run_io.

Lemma sleep_call_constants call se c :
  sleep_constants (fst (sleep_call call se c)) = sleep_constants se.
Proof. sleep_call_cases call se; reflexivity. Qed.

Lemma sleep_call_latency call se c :
  0 <= SleepEntry.sleepLatency se <= 2 * GoTime.Hour ->
  0 <= SleepEntry.sleepLatency (fst (sleep_call call se c)) <= 2 * GoTime.Hour.
Proof.
  intros H. sleep_call_cases call se; try exact H;
    cbn [SleepEntry.sleepLatency SleepEntry.set_sleepLatency SleepEntry.addDomainEvent
         SleepEntry.set_domainEvents];
    apply Z.ltb_ge in Hlo; rewrite Z.gtb_ltb in Hhi; apply Z.ltb_ge in Hhi; lia.
Qed.

(** X10.  Whatever is called on a constructed [SleepEntry], and in whatever
    order: the identity, date, bedtime and wake time are those given to the
    constructor; the fields that have a getter and no setter (caffeine after
    noon, screen use before bed, evening free time, notes) stay at their zero
    values; and the sleep latency stays between zero and two hours. *)
Theorem SleepEntry_invariants id date bedtime wakeTime quality c0 se0 c1 :
  NewSleepEntry id date bedtime wakeTime quality c0 = (Ok se0, c1) ->
  forall calls c,
    let se := fst (sleep_calls calls se0 c) in
    sleep_constants se = (id, date, bedtime, wakeTime, (false, 0, 0, "")) /\
    0 <= SleepEntry.sleepLatency se <= 2 * GoTime.Hour.
Proof.
  intros Hnew calls c. apply SleepFacts.NewSleepEntry_ok in Hnew as [_ ->]. cbv zeta.
  split.
  - apply (sleep_calls_keep
             (fun se => sleep_constants se = (id, date, bedtime, wakeTime, (false, 0, 0, ""))));
      [|reflexivity].
    intros call se c' H. now rewrite sleep_call_constants.
  - apply (sleep_calls_keep (fun se => 0 <= SleepEntry.sleepLatency se <= 2 * GoTime.Hour));
      [exact sleep_call_latency|].
    cbn. lia.
Qed.

(** The 00:30 to 08:00 entry: a latency of three hours refused, one of two
    hours accepted, an awakening, a new quality. *)
Lemma SleepEntry_invariants_witness :
  exists se0 c1 se,
    Samples.sleep0 Samples.clock0 = (Ok se0, c1) /\
    se = fst (sleep_calls [callSetSleepLatency (3 * GoTime.Hour);
                           callSetSleepLatency (2 * GoTime.Hour);
                           callRecordNightAwakening; callUpdateSleepQuality 2] se0 c1) /\
    SleepEntry.sleepLatency se = 2 * GoTime.Hour /\
    SleepEntry.notes se = "" /\
    0 <= SleepEntry.sleepLatency se <= 2 * GoTime.Hour.
Proof.
  eexists _, _, _. split; [vm_compute; reflexivity|]. split; [reflexivity|].
  split; [vm_compute; reflexivity|]. split; [vm_compute; reflexivity|].
  unshelve eapply (proj2 (SleepEntry_invariants
                     "sleep-1" Samples.day0 Samples.bedtime0 Samples.wakeTime0 6
                     Samples.clock0 _ _ _ _ _));
    try (vm_compute; reflexivity).
Defined.

End SleepTraceFacts.

(** ** [SleepEntry]: the methods and their events *)

Module SleepMethodFacts.

Import errors valueobjects entities Calls Spec Traces.
Local Open Scope string_scope.
Local Open Scope Z_scope.

Ltac int64 := unfold GoInt.in_int64, GoInt.minInt64, GoInt.maxInt64 in *.

(** *** Night awakenings *)

Lemma sleep_call_awakenings call se c :
  0 <= SleepEntry.nightAwakenings se ->
  SleepEntry.nightAwakenings se + 1 <= GoInt.maxInt64 ->
  SleepEntry.nightAwakenings (fst (sleep_call call se c))
  = SleepEntry.nightAwakenings se + (if is_RecordNightAwakening call then 1 else 0).
Proof.
  intros H0 Hmax.
  assert (Hw : GoInt.add (SleepEntry.nightAwakenings se) 1 = SleepEntry.nightAwakenings se + 1).
  { apply GoIntFacts.wrap64_small. int64. lia. }
  SleepTraceFacts.sleep_call_cases call se; cbn [is_RecordNightAwakening];
    cbn [SleepEntry.nightAwakenings SleepEntry.set_nightAwakenings SleepEntry.addDomainEvent
         SleepEntry.set_domainEvents SleepEntry.set_sleepLatency
         SleepEntry.set_daytimeSleepiness SleepEntry.set_sleepQuality
         SleepEntry.ClearDomainEvents];
    rewrite ?Hw; lia.
Qed.

Lemma sleep_call_awakenings_other call se c :
  is_RecordNightAwakening call = false ->
  SleepEntry.nightAwakenings (fst (sleep_call call se c)) = SleepEntry.nightAwakenings se.
Proof.
  intros H. SleepTraceFacts.sleep_call_cases call se; try discriminate; reflexivity.
Qed.

Lemma awakenings_in_cons call calls :
  awakenings_in (call :: calls)
  = (if is_RecordNightAwakening call then 1 else 0) + awakenings_in calls.
Proof.
  unfold awakenings_in. cbn [filter].
  destruct (is_RecordNightAwakening call); cbn [List.length]; lia.
Qed.

Lemma awakenings_in_nonneg calls : 0 <= awakenings_in calls.
Proof. unfold awakenings_in. lia. Qed.

Lemma sleep_calls_awakenings calls se c :
  0 <= SleepEntry.nightAwakenings se ->
  SleepEntry.nightAwakenings se + awakenings_in calls <= GoInt.maxInt64 ->
  SleepEntry.nightAwakenings (fst (sleep_calls calls se c))
  = SleepEntry.nightAwakenings se + awakenings_in calls.
Proof.
  revert se c. induction calls as [|call calls IH]; intros se c H0 Hmax.
  - cbn. unfold awakenings_in. cbn. lia.
  - rewrite awakenings_in_cons in *. cbn [sleep_calls]. unfold bind.
    pose proof (awakenings_in_nonneg calls) as Hpos.
    destruct (is_RecordNightAwakening call) eqn:Hcall.
    + pose proof (sleep_call_awakenings call se c H0 ltac:(lia)) as H1.
      rewrite Hcall in H1.
      destruct (sleep_call call se c) as [se1 c1]. cbn [fst] in H1.
      rewrite IH; lia.
    + pose proof (sleep_call_awakenings_other call se c Hcall) as Hsame.
      destruct (sleep_call call se c) as [se1 c1]. cbn [fst] in Hsame.
      rewrite IH; lia.
Qed.

(** X11.  After any series of calls on a constructed [SleepEntry] the
    night-awakenings counter is the number of [RecordNightAwakening] calls of
    the series (as long as that number is an [int]): no other method writes
    it and none lowers it.  From the second awakening on, [IsSleepHealthy()]
    is false, whatever else is called. *)
Theorem awakenings_counted id date bedtime wakeTime quality c0 se0 c1 :
  NewSleepEntry id date bedtime wakeTime quality c0 = (Ok se0, c1) ->
  forall calls c,
    awakenings_in calls <= GoInt.maxInt64 ->
    let se := fst (sleep_calls calls se0 c) in
    SleepEntry.nightAwakenings se = awakenings_in calls /\
    (2 <= awakenings_in calls -> SleepEntry.IsSleepHealthy se = false).
Proof.
  intros Hnew calls c Hmax. apply SleepFacts.NewSleepEntry_ok in Hnew as [_ ->]. cbv zeta.
  match goal with |- context [sleep_calls calls ?s c] =>
    pose proof (sleep_calls_awakenings calls s c) as Hn end.
  cbn [SleepEntry.nightAwakenings SleepEntry.addDomainEvent SleepEntry.set_domainEvents
       SleepEntry.calculateTotalSleepHours SleepEntry.set_totalSleepHours Views.blank] in Hn.
  specialize (Hn ltac:(lia) ltac:(lia)). rewrite Z.add_0_l in Hn.
  split; [exact Hn|].
  intros Htwo. unfold SleepEntry.IsSleepHealthy. rewrite Hn.
  replace (awakenings_in calls <=? 1) with false by (symmetry; apply Z.leb_gt; lia).
  apply andb_false_r.
Qed.

(** The 00:30 to 08:00 entry of quality 6: healthy; after two awakenings
    with a quality update between them, not healthy. *)
Lemma awakenings_counted_witness :
  exists se0 c1,
    Samples.sleep0 Samples.clock0 = (Ok se0, c1) /\
    SleepEntry.IsSleepHealthy se0 = true /\
    let se := fst (sleep_calls [callRecordNightAwakening; callUpdateSleepQuality 9;
                                callRecordNightAwakening] se0 c1) in
    SleepEntry.nightAwakenings se = 2 /\ SleepEntry.IsSleepHealthy se = false.
Proof.
  eexists _, _. split; [vm_compute; reflexivity|]. split; [vm_compute; reflexivity|].
  cbv zeta.
  unshelve epose proof (awakenings_counted
                          "sleep-1" Samples.day0 Samples.bedtime0 Samples.wakeTime0 6
                          Samples.clock0 _ _ _
                          [callRecordNightAwakening; callUpdateSleepQuality 9;
                           callRecordNightAwakening]
                          (mkClock (readings Samples.clock0) 1%nat) _) as H;
    try (vm_compute; reflexivity).
  - vm_compute. discriminate.
  - destruct H as [Hn Hbad]. split; [exact Hn|]. apply Hbad. vm_compute. discriminate.
Defined.

Lemma countType_app ty (a b : list DomainEvent) :
  countType ty (a ++ b) = (countType ty a + countType ty b)%nat.
Proof. unfold countType. now rewrite filter_app, length_app. Qed.

(** [n] awakenings in a row, on an entry that counts [k] already. *)
Lemma awakenings_in_a_row (n k : nat) se c :
  SleepEntry.nightAwakenings se = Z.of_nat k ->
  Z.of_nat (k + n) <= GoInt.maxInt64 ->
  exists new,
    SleepEntry.domainEvents (fst (sleep_calls (repeat callRecordNightAwakening n) se c))
    = (SleepEntry.domainEvents se ++ new)%list /\
    countType "NightAwakeningRecorded" new = n /\
    countType "PoorSleepQualityDetected" new = (n - (2 - k))%nat /\
    List.length new = (n + (n - (2 - k)))%nat /\
    SleepEntry.nightAwakenings (fst (sleep_calls (repeat callRecordNightAwakening n) se c))
    = Z.of_nat (k + n).
Proof.
  revert k se c. induction n as [|n IH]; intros k se c Hk Hmax.
  - exists []. cbn. rewrite app_nil_r, Nat.add_0_r. repeat split. exact Hk.
  - cbn [repeat sleep_calls sleep_call]. unfold bind.
    rewrite SleepFacts.RecordNightAwakening_run by (rewrite Hk; int64; lia).
    cbv zeta. rewrite Hk.
    replace (Z.of_nat k + 1) with (Z.of_nat (S k)) by lia.
    destruct (Z.of_nat (S k) >=? 3) eqn:Hmany.
    + rewrite Z.geb_leb in Hmany. apply Z.leb_le in Hmany.
      match goal with |- context [sleep_calls _ ?s ?c'] =>
        destruct (IH (S k) s c' eq_refl ltac:(lia)) as (new & Hev & Hnar & Hpoor & Hlen & Hcount)
      end.
      eexists (_ :: _ :: new). rewrite Hev, Hcount.
      cbn [SleepEntry.domainEvents SleepEntry.addDomainEvent SleepEntry.set_domainEvents
           SleepEntry.set_nightAwakenings].
      rewrite <- !app_assoc. cbn [app]. split; [reflexivity|].
      match goal with |- context [?a :: ?b :: new] =>
        change (a :: b :: new) with ([a; b] ++ new)%list;
        assert (H1 : countType "NightAwakeningRecorded" [a; b] = 1%nat) by reflexivity;
        assert (H2 : countType "PoorSleepQualityDetected" [a; b] = 1%nat) by reflexivity
      end.
      rewrite !countType_app, length_app, H1, H2, Hnar, Hpoor, Hlen. cbn [List.length].
      repeat split; try lia; f_equal; lia.
    + rewrite Z.geb_leb in Hmany. apply Z.leb_gt in Hmany.
      match goal with |- context [sleep_calls _ ?s ?c'] =>
        destruct (IH (S k) s c' eq_refl ltac:(lia)) as (new & Hev & Hnar & Hpoor & Hlen & Hcount)
      end.
      eexists (_ :: new). rewrite Hev, Hcount.
      cbn [SleepEntry.domainEvents SleepEntry.addDomainEvent SleepEntry.set_domainEvents
           SleepEntry.set_nightAwakenings].
      rewrite <- !app_assoc. cbn [app]. split; [reflexivity|].
      match goal with |- context [?a :: new] =>
        change (a :: new) with ([a] ++ new)%list;
        assert (H1 : countType "NightAwakeningRecorded" [a] = 1%nat) by reflexivity;
        assert (H2 : countType "PoorSleepQualityDetected" [a] = 0%nat) by reflexivity
      end.
      rewrite !countType_app, length_app, H1, H2, Hnar, Hpoor, Hlen. cbn [List.length].
      repeat split; try lia; f_equal; lia.
Qed.

(** X12.  [n] calls of [RecordNightAwakening] in a row on a freshly
    constructed entry record [n] [NightAwakeningRecorded] events and, for
    [n] of 2 and more, [n - 2] [PoorSleepQualityDetected] events: every call
    from the third on records one, not the third call alone. *)
Theorem n_night_awakenings id date bedtime wakeTime quality c0 se0 c1 :
  NewSleepEntry id date bedtime wakeTime quality c0 = (Ok se0, c1) ->
  forall (n : nat) c,
    Z.of_nat n <= GoInt.maxInt64 ->
    let se := fst (sleep_calls (repeat callRecordNightAwakening n) se0 c) in
    let added := appended (SleepEntry.domainEvents se0) (SleepEntry.domainEvents se) in
    countType "NightAwakeningRecorded" added = n /\
    countType "PoorSleepQualityDetected" added = (n - 2)%nat /\
    List.length added = (n + (n - 2))%nat /\
    SleepEntry.nightAwakenings se = Z.of_nat n.
Proof.
  intros Hnew n c Hmax. apply SleepFacts.NewSleepEntry_ok in Hnew as [_ ->]. cbv zeta.
  match goal with |- context [sleep_calls _ ?s c] =>
    destruct (awakenings_in_a_row n 0 s c eq_refl ltac:(lia))
      as (new & Hev & Hnar & Hpoor & Hlen & Hcount)
  end.
  rewrite Hev, SleepFacts.appended_app, Hcount.
  rewrite Nat.sub_0_r in Hpoor, Hlen. repeat split; assumption.
Qed.

(** Five awakenings: five events of the first kind, three of the second. *)
Lemma n_night_awakenings_witness :
  exists se0 c1,
    Samples.sleep0 Samples.clock0 = (Ok se0, c1) /\
    let se := fst (sleep_calls (repeat callRecordNightAwakening 5) se0 c1) in
    let added := appended (SleepEntry.domainEvents se0) (SleepEntry.domainEvents se) in
    countType "NightAwakeningRecorded" added = 5%nat /\
    countType "PoorSleepQualityDetected" added = 3%nat.
Proof.
  eexists _, _. split; [vm_compute; reflexivity|]. cbv zeta.
  unshelve epose proof (n_night_awakenings
                          "sleep-1" Samples.day0 Samples.bedtime0 Samples.wakeTime0 6
                          Samples.clock0 _ _ _ 5%nat
                          (mkClock (readings Samples.clock0) 1%nat) _) as H;
    try (vm_compute; reflexivity).
  - vm_compute. discriminate.
  - destruct H as (Hnar & Hpoor & _). split; [exact Hnar | exact Hpoor].
Defined.

(** *** [abs] and daytime sleepiness *)

Lemma abs_int_range (x : Z) :
  GoInt.minInt64 < x <= GoInt.maxInt64 -> abs x = Z.abs x.
Proof.
  intros Hx. unfold abs, GoInt.neg. destruct (x <? 0) eqn:Hneg.
  - apply Z.ltb_lt in Hneg. rewrite GoIntFacts.wrap64_small by (int64; lia). lia.
  - apply Z.ltb_ge in Hneg. lia.
Qed.

(** X13.  [abs] returns the absolute value of every [int] but the smallest
    one, for which it returns the argument itself, a negative number. *)
Theorem abs_int (x : Z) :
  GoInt.in_int64 x ->
  (x <> GoInt.minInt64 -> abs x = Z.abs x /\ 0 <= abs x) /\
  (x = GoInt.minInt64 -> abs x = GoInt.minInt64 /\ abs x < 0).
Proof.
  intros Hx. unfold abs, GoInt.neg. split.
  - intros Hne. destruct (x <? 0) eqn:Hneg.
    + apply Z.ltb_lt in Hneg. rewrite GoIntFacts.wrap64_small by (int64; lia). lia.
    + apply Z.ltb_ge in Hneg. lia.
  - intros ->. vm_compute. split; reflexivity.
Qed.

Lemma abs_int_witness :
  abs (-3) = 3 /\ abs GoInt.minInt64 = GoInt.minInt64.
Proof.
  split.
  - apply (proj1 (abs_int (-3) ltac:(int64; lia))). int64. lia.
  - apply (proj2 (abs_int GoInt.minInt64 ltac:(int64; lia))). reflexivity.
Defined.

Lemma NewDaytimeSleepiness_ok (n : Z) (ds : DaytimeSleepiness) :
  NewDaytimeSleepiness n = Ok ds -> ds = n /\ 0 <= n <= 10.
Proof.
  unfold NewDaytimeSleepiness. intros H.
  destruct (n <? 0) eqn:Hlo; [discriminate|].
  destruct (n >? 10) eqn:Hhi; [discriminate|].
  apply Z.ltb_ge in Hlo. rewrite Z.gtb_ltb in Hhi. apply Z.ltb_ge in Hhi.
  injection H as <-. lia.
Qed.

(** X14.  [SetDaytimeSleepiness] with a level made by
    [NewDaytimeSleepiness], on an entry whose level was made by it too (the
    zero of a new entry is): the level is stored in every case; a
    [DaytimeSleepinessChanged] event carrying the old and the new level is
    recorded exactly when the two differ by 3 or more, and otherwise nothing
    is recorded and the clock is not read. *)
Theorem SetDaytimeSleepiness_threshold se c nold n s :
  NewDaytimeSleepiness nold = Ok (SleepEntry.daytimeSleepiness se) ->
  NewDaytimeSleepiness n = Ok s ->
  let old := SleepEntry.daytimeSleepiness se in
  let se' := fst (SleepEntry.SetDaytimeSleepiness s se c) in
  let c' := snd (SleepEntry.SetDaytimeSleepiness s se c) in
  SleepEntry.daytimeSleepiness se' = s /\
  (3 <= Z.abs (s - old) ->
   SleepEntry.domainEvents se'
   = (SleepEntry.domainEvents se
      ++ [DaytimeSleepinessChangedEvent (SleepEntry.id se) old s (readings c (ticks c))])%list
   /\ c' = mkClock (readings c) (S (ticks c))) /\
  (Z.abs (s - old) < 3 ->
   SleepEntry.domainEvents se' = SleepEntry.domainEvents se /\ c' = c).
Proof.
  intros Hold Hnew. apply NewDaytimeSleepiness_ok in Hold as [Heq Hold].
  apply NewDaytimeSleepiness_ok in Hnew as [-> Hnew]. cbv zeta.
  unfold SleepEntry.SetDaytimeSleepiness. cbv zeta.
  assert (Habs : abs (GoInt.sub n (SleepEntry.daytimeSleepiness se))
                 = Z.abs (n - SleepEntry.daytimeSleepiness se)).
  { unfold GoInt.sub. rewrite GoIntFacts.wrap64_small by (int64; lia).
    apply abs_int_range. int64. lia. }
  rewrite Habs.
  destruct (Z.abs (n - SleepEntry.daytimeSleepiness se) >=? 3) eqn:Hfar; run_io;
    rewrite Z.geb_leb in Hfar; [apply Z.leb_le in Hfar | apply Z.leb_gt in Hfar];
    (split; [reflexivity|]); split; intros H; try lia; split; reflexivity.
Qed.

(** A new entry: a sleepiness of 2 is stored in silence, one of 5 with an
    event. *)
Lemma SetDaytimeSleepiness_threshold_witness :
  exists se0 c1,
    Samples.sleep0 Samples.clock0 = (Ok se0, c1) /\
    List.length (SleepEntry.domainEvents (fst (SleepEntry.SetDaytimeSleepiness 2 se0 c1)))
    = 1%nat /\
    List.length (SleepEntry.domainEvents (fst (SleepEntry.SetDaytimeSleepiness 5 se0 c1)))
    = 2%nat.
Proof.
  eexists _, _. split; [vm_compute; reflexivity|]. split.
  - match goal with |- context [SleepEntry.SetDaytimeSleepiness 2 ?s ?k] =>
      destruct (SetDaytimeSleepiness_threshold s k 0 2 2 eq_refl eq_refl) as (_ & _ & Hnear)
    end.
    rewrite (proj1 (Hnear ltac:(vm_compute; reflexivity))). reflexivity.
  - match goal with |- context [SleepEntry.SetDaytimeSleepiness 5 ?s ?k] =>
      destruct (SetDaytimeSleepiness_threshold s k 0 5 5 eq_refl eq_refl) as (_ & Hfar & _)
    end.
    rewrite (proj1 (Hfar ltac:(vm_compute; discriminate))). reflexivity.
Defined.

(** *** Sleep quality *)

Lemma appended_nil (l : list DomainEvent) : appended l [] = [].
Proof. unfold appended. apply skipn_nil. Qed.

Lemma appended_same (l : list DomainEvent) : appended l l = [].
Proof. unfold appended. apply skipn_all. Qed.

(** X15.  Whenever a call on a [SleepEntry] records a
    [PoorSleepQualityDetected] event, [IsSleepHealthy()] is false after the
    call: the two tests that raise the event, three awakenings or more and a
    quality of 3 or less, each contradict a condition of healthy sleep. *)
Theorem poor_quality_means_unhealthy call se c :
  let se' := fst (sleep_call call se c) in
  (0 < countType "PoorSleepQualityDetected"
         (appended (SleepEntry.domainEvents se) (SleepEntry.domainEvents se')))%nat ->
  SleepEntry.IsSleepHealthy se' = false.
Proof.
  cbv zeta. SleepTraceFacts.sleep_call_cases call se;
    cbn [SleepEntry.domainEvents SleepEntry.addDomainEvent SleepEntry.set_domainEvents
         SleepEntry.set_sleepLatency SleepEntry.set_nightAwakenings
         SleepEntry.set_daytimeSleepiness SleepEntry.set_sleepQuality
         SleepEntry.ClearDomainEvents];
    rewrite <- ?app_assoc, ?SleepFacts.appended_app, ?appended_nil, ?appended_same;
    intros Hpoor_ev; try (exfalso; revert Hpoor_ev; cbn; lia).
  - unfold SleepEntry.IsSleepHealthy.
    cbn [SleepEntry.nightAwakenings SleepEntry.set_nightAwakenings
         SleepEntry.addDomainEvent SleepEntry.set_domainEvents] in *.
    rewrite Z.geb_leb in Hmany. apply Z.leb_le in Hmany.
    match goal with |- context [?n <=? 1] =>
      replace (n <=? 1) with false by (symmetry; apply Z.leb_gt; lia) end.
    apply andb_false_r.
  - unfold SleepEntry.IsSleepHealthy.
    cbn [SleepEntry.sleepQuality SleepEntry.set_sleepQuality
         SleepEntry.addDomainEvent SleepEntry.set_domainEvents] in *.
    apply Z.leb_le in Hpoor.
    replace (quality >=? 6) with false
      by (symmetry; rewrite Z.geb_leb; apply Z.leb_gt; lia).
    rewrite andb_false_r. reflexivity.
Qed.

(** The 00:30 to 08:00 entry, rated 2. *)
Lemma poor_quality_means_unhealthy_witness :
  exists se0 c1,
    Samples.sleep0 Samples.clock0 = (Ok se0, c1) /\
    SleepEntry.IsSleepHealthy se0 = true /\
    SleepEntry.IsSleepHealthy (fst (sleep_call (callUpdateSleepQuality 2) se0 c1)) = false.
Proof.
  eexists _, _. split; [vm_compute; reflexivity|]. split; [vm_compute; reflexivity|].
  apply (poor_quality_means_unhealthy (callUpdateSleepQuality 2)).
  vm_compute. reflexivity.
Defined.

Lemma NewSleepQuality_ok (n : Z) (sq : SleepQuality) :
  NewSleepQuality n = Ok sq -> sq = n /\ 0 <= n <= 10.
Proof.
  unfold NewSleepQuality. intros H.
  destruct (n <? 0) eqn:Hlo; [discriminate|].
  destruct (n >? 10) eqn:Hhi; [discriminate|].
  apply Z.ltb_ge in Hlo. rewrite Z.gtb_ltb in Hhi. apply Z.ltb_ge in Hhi.
  injection H as <-. lia.
Qed.

(** X16.  [UpdateSleepQuality] with a quality made by [NewSleepQuality]
    stores it and records a [SleepQualityUpdated] event carrying the old and
    the new quality, also when the two are equal; a quality of 3 or less
    records a [PoorSleepQualityDetected] event after it (reason "low quality
    rating", carrying the quality), and a quality that [IsGood()] accepts
    never does. *)
Theorem UpdateSleepQuality_events se c n q :
  NewSleepQuality n = Ok q ->
  let old := SleepEntry.sleepQuality se in
  let se' := fst (SleepEntry.UpdateSleepQuality q se c) in
  let updated := SleepQualityUpdatedEvent (SleepEntry.id se) old q (readings c (ticks c)) in
  SleepEntry.sleepQuality se' = q /\
  (q <= 3 ->
   SleepEntry.domainEvents se'
   = (SleepEntry.domainEvents se
      ++ [updated;
          PoorSleepQualityDetectedEvent (SleepEntry.id se) "low quality rating" 0 (Some q)
            (readings c (S (ticks c)))])%list) /\
  (3 < q -> SleepEntry.domainEvents se' = (SleepEntry.domainEvents se ++ [updated])%list) /\
  (SleepQuality_IsGood q = true -> 3 < q).
Proof.
  intros Hq. apply NewSleepQuality_ok in Hq as [-> Hq]. cbv zeta.
  unfold SleepEntry.UpdateSleepQuality. cbv zeta. run_io.
  destruct (n <=? 3) eqn:Hpoor;
    [apply Z.leb_le in Hpoor | apply Z.leb_gt in Hpoor];
    cbn [fst SleepEntry.sleepQuality SleepEntry.domainEvents SleepEntry.addDomainEvent
         SleepEntry.set_domainEvents SleepEntry.set_sleepQuality SleepEntry.id];
    rewrite <- ?app_assoc; cbn [app];
    (split; [reflexivity|]); (split; [intros H; try lia; reflexivity|]);
    (split; [intros H; try lia; reflexivity|]);
    unfold SleepQuality_IsGood; rewrite Z.geb_leb; intros H; apply Z.leb_le in H; lia.
Qed.

(** The 00:30 to 08:00 entry of quality 6, rated 6 again. *)
Lemma UpdateSleepQuality_events_witness :
  exists se0 c1,
    Samples.sleep0 Samples.clock0 = (Ok se0, c1) /\
    map EventType (SleepEntry.domainEvents (fst (SleepEntry.UpdateSleepQuality 6 se0 c1)))
    = ["SleepEntryCreated"; "SleepQualityUpdated"].
Proof.
  eexists _, _. split; [vm_compute; reflexivity|].
  match goal with |- context [SleepEntry.UpdateSleepQuality 6 ?s ?k] =>
    destruct (UpdateSleepQuality_events s k 6 6 eq_refl) as (_ & _ & Hmid & _)
  end.
  rewrite (Hmid ltac:(lia)). reflexivity.
Defined.

(** *** Sleep latency *)

(** X17.  [SetSleepLatency] accepts exactly the latencies from zero to two
    hours, both included.  An accepted latency equal to the stored one
    changes nothing and records nothing; one that differs is stored and
    records one [SleepLatencyChanged] event carrying the old and the new
    latency. *)
Theorem SetSleepLatency_events latency se c :
  let old := SleepEntry.sleepLatency se in
  (latency < 0 \/ 2 * GoTime.Hour < latency ->
   exists e, SleepEntry.SetSleepLatency latency se c = (Some e, se, c)) /\
  (0 <= latency <= 2 * GoTime.Hour -> latency = old ->
   SleepEntry.SetSleepLatency latency se c = (None, se, c)) /\
  (0 <= latency <= 2 * GoTime.Hour -> latency <> old ->
   exists se',
     SleepEntry.SetSleepLatency latency se c = (None, se', mkClock (readings c) (S (ticks c))) /\
     SleepEntry.sleepLatency se' = latency /\
     SleepEntry.domainEvents se'
     = (SleepEntry.domainEvents se
        ++ [SleepLatencyChangedEvent (SleepEntry.id se) old latency (readings c (ticks c))])%list).
Proof.
  cbv zeta. unfold SleepEntry.SetSleepLatency.
  destruct (latency <? 0) eqn:Hlo;
    [apply Z.ltb_lt in Hlo | apply Z.ltb_ge in Hlo];
    [|destruct (latency >? 2 * GoTime.Hour) eqn:Hhi; rewrite Z.gtb_ltb in Hhi;
      [apply Z.ltb_lt in Hhi | apply Z.ltb_ge in Hhi]].
  - split; [intros _; eexists; reflexivity|]. split; intros; lia.
  - split; [intros _; eexists; reflexivity|]. split; intros; lia.
  - split; [intros; lia|]. split.
    + intros _ Heq. rewrite <- Heq, Z.eqb_refl. cbn [negb]. run_io.
      rewrite Heq. now destruct se.
    + intros _ Hne. apply not_eq_sym in Hne. apply Z.eqb_neq in Hne. rewrite Hne.
      cbn [negb]. run_io. eexists. repeat split.
Qed.

(** The 00:30 to 08:00 entry: 30 minutes stored with an event, 30 minutes
    again in silence, two hours and a nanosecond refused. *)
Lemma SetSleepLatency_events_witness :
  exists se0 c1 se1 c2,
    Samples.sleep0 Samples.clock0 = (Ok se0, c1) /\
    SleepEntry.SetSleepLatency (30 * GoTime.Minute) se0 c1 = (None, se1, c2) /\
    List.length (SleepEntry.domainEvents se1) = 2%nat /\
    SleepEntry.SetSleepLatency (30 * GoTime.Minute) se1 c2 = (None, se1, c2) /\
    exists e, SleepEntry.SetSleepLatency (2 * GoTime.Hour + 1) se1 c2 = (Some e, se1, c2).
Proof.
  eexists _, _, _, _. split; [vm_compute; reflexivity|].
  split; [vm_compute; reflexivity|]. split; [vm_compute; reflexivity|]. split.
  - apply (proj1 (proj2 (SetSleepLatency_events (30 * GoTime.Minute) _ _))).
    + vm_compute. split; discriminate.
    + vm_compute. reflexivity.
  - apply (proj1 (SetSleepLatency_events (2 * GoTime.Hour + 1) _ _)).
    right. vm_compute. reflexivity.
Defined.

End SleepMethodFacts.

(** ** Errors, categories, numerals and base events *)

Module PackageFacts.

Import errors valueobjects entities Calls Spec Traces Messages.
Local Open Scope string_scope.
Local Open Scope Z_scope.

(** *** The errors of the entities *)

Lemma domain_error_kind (msg : string) :
  Error (NewDomainError msg) = msg /\
  IsDomainError (NewDomainError msg) = true /\
  IsValidationError (NewDomainError msg) = false /\
  IsNotFoundError (NewDomainError msg) = false.
Proof. repeat split. Qed.

(** X18.  Every error a constructor or a method of the two entities returns
    is a [DomainError] with the code [DOMAIN_ERROR] and one of eight fixed
    messages, which [Error()] returns: [IsDomainError] accepts it, and
    [IsValidationError] and [IsNotFoundError] do not. *)
Theorem entity_errors_are_domain_errors (e : error) :
  (exists id date dayNumber keyTask category stressBefore,
     NewTaskEntry id date dayNumber keyTask category stressBefore = Err e) \/
  (exists te c te' c', TaskEntry.StartTask te c = (Some e, te', c')) \/
  (exists d te c te' c', TaskEntry.UpdateDuration d te c = (Some e, te', c')) \/
  (exists id date bedtime wakeTime quality c c',
     NewSleepEntry id date bedtime wakeTime quality c = (Err e, c')) \/
  (exists l se c se' c', SleepEntry.SetSleepLatency l se c = (Some e, se', c')) ->
  In (Error e) entity_messages /\
  e = ofDomainError (mkDomainError (Error e) "DOMAIN_ERROR") /\
  IsDomainError e = true /\ IsValidationError e = false /\ IsNotFoundError e = false.
Proof.
  assert (Hmsg : forall msg, In msg entity_messages -> e = NewDomainError msg ->
            In (Error e) entity_messages /\
            e = ofDomainError (mkDomainError (Error e) "DOMAIN_ERROR") /\
            IsDomainError e = true /\ IsValidationError e = false /\
            IsNotFoundError e = false).
  { intros msg Hin ->. repeat split. exact Hin. }
  intros [H|[H|[H|[H|H]]]].
  - destruct H as (id & date & dayNumber & keyTask & category & stressBefore & H).
    unfold NewTaskEntry in H.
    destruct (String.eqb keyTask "");
      [|destruct (dayNumber <? 1); [|discriminate]]; injection H as <-;
      eapply Hmsg; try reflexivity; unfold entity_messages; cbn; tauto.
  - destruct H as (te & c & te' & c' & H).
    apply TaskFacts.StartTask_error in H as (_ & _ & _ & ->).
    eapply Hmsg; try reflexivity. unfold entity_messages; cbn; tauto.
  - destruct H as (d & te & c & te' & c' & H). unfold TaskEntry.UpdateDuration in H.
    destruct (negb (TaskEntry.started te)); [|destruct (d <? 0); [|discriminate]];
      run_io; injection H as <- _ _;
      eapply Hmsg; try reflexivity; unfold entity_messages; cbn; tauto.
  - destruct H as (id & date & bedtime & wakeTime & quality & c & c' & H).
    rewrite SleepFacts.NewSleepEntry_cases in H.
    destruct (Views.rejected bedtime wakeTime); [|discriminate].
    injection H as <- _. eapply Hmsg; try reflexivity. unfold entity_messages; cbn; tauto.
  - destruct H as (l & se & c & se' & c' & H). unfold SleepEntry.SetSleepLatency in H.
    destruct (l <? 0); [|destruct (l >? 2 * GoTime.Hour);
      [|destruct (negb (SleepEntry.sleepLatency se =? l)); discriminate]];
      run_io; injection H as <- _ _;
      eapply Hmsg; try reflexivity; unfold entity_messages; cbn; tauto.
Qed.

(** The error of a latency of three hours. *)
Lemma entity_errors_are_domain_errors_witness :
  exists e,
    fst (fst (SleepEntry.SetSleepLatency (3 * GoTime.Hour)
                (Views.blank "sleep-1" Samples.day0 Samples.bedtime0 Samples.wakeTime0 6)
                Samples.clock0)) = Some e /\
    Error e = "sleep latency seems too long (over 2 hours)" /\
    IsDomainError e = true /\ IsValidationError e = false.
Proof.
  eexists. split; [reflexivity|]. split; [reflexivity|].
  refine (let H := entity_errors_are_domain_errors _ _ in
          conj (proj1 (proj2 (proj2 H))) (proj1 (proj2 (proj2 (proj2 H))))).
  right. right. right. right.
  exists (3 * GoTime.Hour),
    (Views.blank "sleep-1" Samples.day0 Samples.bedtime0 Samples.wakeTime0 6),
    Samples.clock0.
  eexists _, _. reflexivity.
Defined.

(** *** Categories *)

Lemma TrimSpace_tokens (c : string) :
  In c AllTaskCategories -> GoStrings.TrimSpace c = c.
Proof.
  intros H. repeat (destruct H as [<-|H]; [vm_compute; reflexivity|]). destruct H.
Qed.

Lemma IsValid_In (tc : TaskCategory) : IsValid tc = true <-> In tc AllTaskCategories.
Proof.
  unfold IsValid. rewrite existsb_exists. split.
  - intros (c & Hin & Heq). apply String.eqb_eq in Heq. now subst.
  - intros Hin. exists tc. split; [exact Hin | apply String.eqb_refl].
Qed.

Lemma NewTaskCategory_In (s : string) (c : TaskCategory) :
  NewTaskCategory s = Ok c -> In c AllTaskCategories.
Proof.
  unfold NewTaskCategory, NewTaskCategoryWith.
  match goal with |- match ?f with _ => _ end = _ -> _ => destruct f eqn:Hfind end;
    [|discriminate].
  intros H. injection H as <-. apply find_some in Hfind. tauto.
Qed.

(** X19.  A category is valid exactly when it is one of the six constants,
    and exactly when [NewTaskCategory] returns it for its own text.  Whatever
    [NewTaskCategory] returns is valid, and constructing again from its
    [String()] returns it again. *)
Theorem IsValid_NewTaskCategory :
  (forall tc, IsValid tc = true <-> In tc AllTaskCategories) /\
  (forall tc, IsValid tc = true <-> NewTaskCategory tc = Ok tc) /\
  (forall s c, NewTaskCategory s = Ok c ->
     IsValid c = true /\ NewTaskCategory (TaskCategory_String c) = Ok c).
Proof.
  assert (Hself : forall tc, In tc AllTaskCategories -> NewTaskCategory tc = Ok tc).
  { intros tc Hin.
    apply (CategoryFacts.NewTaskCategoryWith_token _ _ CategoryFacts.ToLower_tokens);
      [exact Hin|].
    rewrite TrimSpace_tokens by exact Hin. now apply CategoryFacts.ToLower_tokens. }
  split; [exact IsValid_In|]. split.
  - intros tc. rewrite IsValid_In. split; [apply Hself | apply NewTaskCategory_In].
  - intros s c Hnew. apply NewTaskCategory_In in Hnew.
    split; [now apply IsValid_In | now apply Hself].
Qed.

(** The category of " РАБОТА ", and a category made by a cast. *)
Lemma IsValid_NewTaskCategory_witness :
  IsValid TaskCategoryWork = true /\
  NewTaskCategory (TaskCategory_String TaskCategoryWork) = Ok TaskCategoryWork /\
  IsValid "несуществующая_категория" = false.
Proof.
  destruct (proj2 (proj2 IsValid_NewTaskCategory) " РАБОТА " TaskCategoryWork)
    as [Hvalid Hagain].
  - vm_compute. reflexivity.
  - split; [exact Hvalid|]. split; [exact Hagain | vm_compute; reflexivity].
Defined.

(** *** Decimal numerals *)

Lemma FormatInt10_inj (a b : Z) :
  GoStrconv.FormatInt10 a = GoStrconv.FormatInt10 b -> a = b.
Proof.
  unfold GoStrconv.FormatInt10. intros H.
  assert (Hne : forall z, Z.to_int z <> Decimal.Pos Decimal.Nil /\
                          Z.to_int z <> Decimal.Neg Decimal.Nil).
  { intros z. destruct z as [|p|p]; cbn; split; try discriminate;
      intros Hp; injection Hp as Hp; revert Hp; apply DecimalPos.Unsigned.to_uint_nonnil. }
  apply DecimalZ.to_int_inj.
  pose proof (DecimalString.NilZero.isi (Z.to_int a) (proj1 (Hne a)) (proj2 (Hne a))) as Ha.
  pose proof (DecimalString.NilZero.isi (Z.to_int b) (proj1 (Hne b)) (proj2 (Hne b))) as Hb.
  rewrite H in Ha. rewrite Ha in Hb. now injection Hb.
Qed.

(** X20.  The [String()] of each of the five scales is the decimal numeral
    of the level: two levels print the same text only when they are equal,
    and the levels 0, 5 and 10 of the repository's test print as "0", "5"
    and "10". *)
Theorem level_String_decimal :
  Forall (fun String_ : Z -> string =>
            (forall a b, String_ a = String_ b -> a = b) /\
            String_ 0 = "0" /\ String_ 5 = "5" /\ String_ 10 = "10" /\
            String_ (-1) = "-1")
    [StressLevel_String; EnergyLevel_String; MoodLevel_String; SleepQuality_String;
     DaytimeSleepiness_String].
Proof.
  repeat apply Forall_cons; try apply Forall_nil;
    (split; [exact FormatInt10_inj | repeat split]).
Qed.

(** Two different levels. *)
Lemma level_String_decimal_witness :
  StressLevel_String 3 <> StressLevel_String 4 /\ SleepQuality_String 10 = "10".
Proof.
  split.
  - intros H. apply (proj1 (Forall_inv level_String_decimal)) in H. discriminate H.
  - apply (proj2 (proj2 (proj2 (Forall_inv
             (Forall_inv_tail (Forall_inv_tail (Forall_inv_tail level_String_decimal))))))).
Defined.

(** *** Base events *)

Lemma event_prefix_inj (a b : string) : "event-" ++ a = "event-" ++ b -> a = b.
Proof. cbn. intros H. now injection H. Qed.

(** X21.  [NewBaseEvent] reads the clock twice: the identifier is "event-"
    followed by the decimal [UnixNano()] of the first reading, and
    [OccurredOn()] is the second reading; the type and the aggregate are the
    arguments and the version is 1.  Two events get the same identifier
    exactly when the clock gave the same nanosecond for both, whatever their
    types and aggregates (for instants that fit an [int64]). *)
Theorem NewBaseEvent_identifier eventType1 aggregateID1 c1 eventType2 aggregateID2 c2 :
  let now1 := readings c1 (ticks c1) in
  let now2 := readings c2 (ticks c2) in
  let be1 := fst (events.NewBaseEvent eventType1 aggregateID1 c1) in
  let be2 := fst (events.NewBaseEvent eventType2 aggregateID2 c2) in
  GoInt.in_int64 (GoTime.unixNano now1) ->
  GoInt.in_int64 (GoTime.unixNano now2) ->
  (events.EventType be1 = eventType1 /\ events.AggregateID be1 = aggregateID1 /\
   events.EventVersion be1 = 1 /\
   events.EventID be1 = "event-" ++ GoStrconv.FormatInt10 (GoTime.unixNano now1) /\
   events.OccurredOn be1 = readings c1 (S (ticks c1)) /\
   snd (events.NewBaseEvent eventType1 aggregateID1 c1)
   = mkClock (readings c1) (S (S (ticks c1)))) /\
  (events.EventID be1 = events.EventID be2 <-> GoTime.unixNano now1 = GoTime.unixNano now2).
Proof.
  cbv zeta. intros H1 H2.
  unfold events.NewBaseEvent, events.generateEventID, GoTime.UnixNano. run_io.
  cbn [events.EventType events.AggregateID events.EventVersion events.EventID
       events.OccurredOn events.ID events.Type_ events.AggregateId events.OccurredAt
       events.Version readings ticks].
  rewrite !GoIntFacts.wrap64_small by assumption.
  split; [repeat split|]. split.
  - intros H. apply event_prefix_inj in H. now apply FormatInt10_inj.
  - intros H. now rewrite H.
Qed.

(** Two events made from one clock state share their identifier; the
    identifier of an event made at the epoch. *)
Lemma NewBaseEvent_identifier_witness :
  events.EventID (fst (events.NewBaseEvent "TaskStarted" "task-1" Samples.clock0))
  = events.EventID (fst (events.NewBaseEvent "SleepEntryCreated" "sleep-1" Samples.clock0)) /\
  events.EventID (fst (events.NewBaseEvent "TaskStarted" "task-1" Samples.clock0))
  = "event-0".
Proof.
  assert (Hin : GoInt.in_int64 (GoTime.unixNano (readings Samples.clock0 (ticks Samples.clock0)))).
  { vm_compute. split; discriminate. }
  pose proof (NewBaseEvent_identifier "TaskStarted" "task-1" Samples.clock0
                "SleepEntryCreated" "sleep-1" Samples.clock0 Hin Hin) as [Hfields Hsame].
  split.
  - apply Hsame. reflexivity.
  - destruct Hfields as (_ & _ & _ & Hid & _). rewrite Hid. reflexivity.
Defined.

End PackageFacts.
